(** * DualWriterMode1: the primary-authoritative dual-write synchronizer

    A shallow embedding of [pkg/apiserver/rest] [DualWriterMode1]
    (src/unnamed/part_000).  Go pointers become locations in an explicit
    heap, so that in-place mutation through a [meta.Accessor] and the
    aliasing between the object returned to the caller and the object
    handed to the mirror call are visible.  Each method is a computation
    in a state monad with a panic outcome; a [go func() { ... }()]
    statement appends the closure, with the variables it captured, to the
    list of launched tasks, and [runTask] is the body of that closure.

    Not modelled: wall-clock time (the duration inside a metric record,
    the ten second timeout of the derived context) and the scheduling of
    launched tasks. *)

From Stdlib Require Import String ZArith List DecimalString DecimalZ DecimalPos.
From stdpp Require Import base option gmap strings list.

Local Open Scope string_scope.

(** ** Objects and the heap *)

Definition loc := nat.

(** A [runtime.Object] interface value: [None] is the nil interface. *)
Definition runtime_Object := option loc.

(** A Go [error]: [None] is nil. *)
Definition error := option string.

(** [metav1.ObjectMeta], the fields the synchronizer reads or writes. *)
Record ObjectMeta := mkMeta {
  UID : string;
  ResourceVersion : string;
  Labels : gmap string string;
  Annotations : gmap string string
}.

(** A stored object.  [meta = None] is a type that does not implement
    [metav1.Object] (for instance a list or a status object). *)
Record Obj := mkObj {
  meta : option ObjectMeta;
  body : string
}.

Definition Heap := gmap loc Obj.

Definition metaOf (h : gmap loc Obj) (o : runtime_Object) : option ObjectMeta :=
  l ← o; x ← h !! l; meta x.

Definition uidOf (h : gmap loc Obj) (o : runtime_Object) : option string :=
  UID <$> metaOf h o.

Definition versionOf (h : gmap loc Obj) (o : runtime_Object) : option string :=
  ResourceVersion <$> metaOf h o.

Definition errNotObject : string := "object does not implement the Object interfaces".

(** [meta.Accessor(obj)] of k8s.io/apimachinery: the object itself, seen
    as a [metav1.Object], or nil and [errNotObject]. *)
Definition Accessor (h : gmap loc Obj) (obj : runtime_Object) : option loc * error :=
  match metaOf h obj with
  | Some _ => (obj, None)
  | None => (None, Some errNotObject)
  end.

Definition setMeta (l : loc) (f : ObjectMeta -> ObjectMeta) (h : gmap loc Obj) : gmap loc Obj :=
  alter (fun x => mkObj (f <$> meta x) (body x)) l h.

Definition withResourceVersion (rv : string) (m : ObjectMeta) : ObjectMeta :=
  mkMeta (UID m) rv (Labels m) (Annotations m).

Definition withUID (uid : string) (m : ObjectMeta) : ObjectMeta :=
  mkMeta uid (ResourceVersion m) (Labels m) (Annotations m).

(** ** Options, validation functions and update directives *)

Record CreateOptions := mkCreateOptions { co_Kind : string }.
Record GetOptions := mkGetOptions { go_Kind : string; go_ResourceVersion : string }.
Record ListOptions := mkListOptions { lo_Kind : string; lo_ResourceVersion : string }.
Record DeleteOptions := mkDeleteOptions { do_Kind : string }.
Record UpdateOptions := mkUpdateOptions { uo_Kind : string }.

Definition ValidateObjectFunc := gmap loc Obj -> runtime_Object -> error.
Definition ValidateObjectUpdateFunc := gmap loc Obj -> runtime_Object -> runtime_Object -> error.

(** Modelled from the spec: [updateWrapper] is declared outside
    src/unnamed/part_000; only its two fields, [upstream] and [updated],
    are visible at the construction sites in [Update].  The first
    constructor stands for any caller-supplied [rest.UpdatedObjectInfo]. *)
Inductive UpdatedObjectInfo :=
| objectInfo (resolve : gmap loc Obj -> runtime_Object -> (runtime_Object * error) * gmap loc Obj)
| updateWrapper (upstream : UpdatedObjectInfo) (updated : runtime_Object).

(** Modelled from the spec: the wrapper's [UpdatedObject] method,
    "resolve(ctx, _ignoredCurrent) -> delegate to wrapped directive's
    resolve(ctx, suppliedObject)" (section 4.3). *)
Fixpoint UpdatedObject (i : UpdatedObjectInfo) (oldObj : runtime_Object) (h : gmap loc Obj)
  : (runtime_Object * error) * gmap loc Obj :=
  match i with
  | objectInfo resolve => resolve h oldObj
  | updateWrapper upstream updated => UpdatedObject upstream updated h
  end.

(** ** The storage port *)

Definition Table := list (list string).

(** [rest.Storage] as both [LegacyStorage] and [Storage] use it.  [St] is
    the private state of the backend; every method may also read and
    write the heap of objects it shares with its caller. *)
Record RestStorage (St : Type) := mkStorage {
  st_Create : runtime_Object -> ValidateObjectFunc -> CreateOptions ->
              St -> gmap loc Obj -> (runtime_Object * error) * St * gmap loc Obj;
  st_Get : string -> GetOptions ->
           St -> gmap loc Obj -> (runtime_Object * error) * St * gmap loc Obj;
  st_List : ListOptions ->
            St -> gmap loc Obj -> (runtime_Object * error) * St * gmap loc Obj;
  st_Delete : string -> ValidateObjectFunc -> DeleteOptions ->
              St -> gmap loc Obj -> (runtime_Object * bool * error) * St * gmap loc Obj;
  st_DeleteCollection : ValidateObjectFunc -> DeleteOptions -> ListOptions ->
              St -> gmap loc Obj -> (runtime_Object * error) * St * gmap loc Obj;
  st_Update : string -> UpdatedObjectInfo -> ValidateObjectFunc ->
              ValidateObjectUpdateFunc -> bool -> UpdateOptions ->
              St -> gmap loc Obj -> (runtime_Object * bool * error) * St * gmap loc Obj;
  st_Destroy : St -> St;
  st_GetSingularName : St -> string;
  st_NamespaceScoped : St -> bool;
  st_New : St -> gmap loc Obj -> runtime_Object * gmap loc Obj;
  st_NewList : St -> gmap loc Obj -> runtime_Object * gmap loc Obj;
  st_ConvertToTable : runtime_Object -> runtime_Object ->
              St -> gmap loc Obj -> (option Table * error) * St * gmap loc Obj
}.

Arguments st_Create {St}.
Arguments st_Get {St}.
Arguments st_List {St}.
Arguments st_Delete {St}.
Arguments st_DeleteCollection {St}.
Arguments st_Update {St}.
Arguments st_Destroy {St}.
Arguments st_GetSingularName {St}.
Arguments st_NamespaceScoped {St}.
Arguments st_New {St}.
Arguments st_NewList {St}.
Arguments st_ConvertToTable {St}.

(** ** Observations: metrics, collaborator calls, launched tasks *)

Inductive Role := Primary | Secondary.

(** One finalized duration record of [dualWriterMetrics]; the duration
    itself is left out. *)
Record DurationRecord := mkRecord {
  rec_role : Role;
  rec_failed : bool;
  rec_mode : string;
  rec_name : string;
  rec_method : string
}.

Inductive Op :=
| OpCreate | OpGet | OpList | OpDelete | OpDeleteCollection | OpUpdate | OpDestroy
| OpGetSingularName | OpNamespaceScoped | OpNew | OpNewList | OpConvertToTable.

(** A call made on the caller's path, with what it answered. *)
Inductive Call :=
| StoreCall (r : Role) (op : Op) (res : runtime_Object) (err : error)
| DirectiveCall (current : runtime_Object) (res : runtime_Object) (err : error).

(** The closure of one [go func() { ... }()] statement. *)
Inductive Task :=
| GoCreate (obj : runtime_Object) (createValidation : ValidateObjectFunc) (options : CreateOptions)
| GoGet (name : string) (options : GetOptions)
| GoList (options : ListOptions)
| GoDelete (name : string) (deleteValidation : ValidateObjectFunc) (options : DeleteOptions)
| GoDeleteCollection (deleteValidation : ValidateObjectFunc) (options : DeleteOptions)
    (listOptions : ListOptions)
| GoUpdate (name : string) (objInfo : UpdatedObjectInfo) (createValidation : ValidateObjectFunc)
    (updateValidation : ValidateObjectUpdateFunc) (forceAllowCreate : bool)
    (options : UpdateOptions).

Record World (L S : Type) := mkWorld {
  heap : gmap loc Obj;
  legacy_st : L;
  storage_st : S;
  metrics : list DurationRecord;
  calls : list Call;
  spawned : list Task;
  logs : list string
}.

Arguments mkWorld {L S}.
Arguments heap {L S}.
Arguments legacy_st {L S}.
Arguments storage_st {L S}.
Arguments metrics {L S}.
Arguments calls {L S}.
Arguments spawned {L S}.
Arguments logs {L S}.

(** ** State monad with panics *)

Inductive Outcome (W A : Type) :=
| Returned (a : A) (w : W)
| Panicked (w : W).

Arguments Returned {W A}.
Arguments Panicked {W A}.

Definition M (W A : Type) := W -> Outcome W A.

Definition ret {W A} (a : A) : M W A := fun w => Returned a w.

Definition bind {W A B} (m : M W A) (k : A -> M W B) : M W B :=
  fun w => match m w with
           | Returned a w' => k a w'
           | Panicked w' => Panicked w'
           end.

Definition panic {W A} : M W A := fun w => Panicked w.

Declare Scope dw_scope.
Delimit Scope dw_scope with dw.
Notation "'let*' x ':=' c 'in' k" := (bind c (fun x => k))
  (at level 10, x pattern, c at level 100, k at level 200) : dw_scope.
Notation "c ';;' k" := (bind c (fun _ => k))
  (at level 100, k at level 200, right associativity) : dw_scope.

(** The final state of a run, whether it returned or panicked. *)
Definition finalWorld {W A} (o : Outcome W A) : W :=
  match o with Returned _ w => w | Panicked w => w end.

Definition returnValue {W A} (o : Outcome W A) : option A :=
  match o with Returned a _ => Some a | Panicked _ => None end.

(** ** The synchronizer *)

Record DualWriterMode1 (L S : Type) := mkDualWriterMode1 {
  Legacy : RestStorage L;
  Storage : RestStorage S
}.

Arguments mkDualWriterMode1 {L S}.
Arguments Legacy {L S}.
Arguments Storage {L S}.

Section Synchronizer.

(** [Mode1] is a constant of the package declared outside part_000. *)
Variable Mode1 : Z.
Context {L S : Type}.

Local Open Scope dw_scope.

(** [var mode = strconv.Itoa(int(Mode1))] *)
Definition mode : string := NilZero.string_of_int (Z.to_int Mode1).

Definition logError (msg : string) : M (World L S) unit :=
  fun w => Returned tt
    (mkWorld (heap w) (legacy_st w) (storage_st w) (metrics w) (calls w) (spawned w)
             (logs w ++ [msg])).

Definition record (r : DurationRecord) : M (World L S) unit :=
  fun w => Returned tt
    (mkWorld (heap w) (legacy_st w) (storage_st w) (metrics w ++ [r]) (calls w) (spawned w)
             (logs w)).

Definition recordLegacyDuration (isError : bool) (mode name method : string)
  : M (World L S) unit :=
  record (mkRecord Primary isError mode name method).

Definition recordStorageDuration (isError : bool) (mode name method : string)
  : M (World L S) unit :=
  record (mkRecord Secondary isError mode name method).

(** Appends a call of a collaborator to the trace of the caller's path. *)
Definition observe (c : Call) : M (World L S) unit :=
  fun w => Returned tt
    (mkWorld (heap w) (legacy_st w) (storage_st w) (metrics w) (calls w ++ [c]) (spawned w)
             (logs w)).

(** [go func() { ... }()] *)
Definition go (t : Task) : M (World L S) unit :=
  fun w => Returned tt
    (mkWorld (heap w) (legacy_st w) (storage_st w) (metrics w) (calls w) (spawned w ++ [t])
             (logs w)).

Definition legacyCall {A} (f : L -> gmap loc Obj -> A * L * gmap loc Obj) : M (World L S) A :=
  fun w => let '(a, l, h) := f (legacy_st w) (heap w) in
    Returned a (mkWorld h l (storage_st w) (metrics w) (calls w) (spawned w) (logs w)).

Definition storageCall {A} (f : S -> gmap loc Obj -> A * S * gmap loc Obj) : M (World L S) A :=
  fun w => let '(a, s, h) := f (storage_st w) (heap w) in
    Returned a (mkWorld h (legacy_st w) s (metrics w) (calls w) (spawned w) (logs w)).

Definition onHeap {A} (f : gmap loc Obj -> A * gmap loc Obj) : M (World L S) A :=
  fun w => let '(a, h) := f (heap w) in
    Returned a (mkWorld h (legacy_st w) (storage_st w) (metrics w) (calls w) (spawned w) (logs w)).

Definition whenErr (err : error) (m : M (World L S) unit) : M (World L S) unit :=
  match err with Some _ => m | None => ret tt end.

Definition isErr (err : error) : bool :=
  match err with Some _ => true | None => false end.

Definition metaAccessor (obj : runtime_Object) : M (World L S) (option loc * error) :=
  onHeap (fun h => (Accessor h obj, h)).

(** A method call through a [metav1.Object] interface value; on the nil
    interface it panics. *)
Definition GetResourceVersion (a : option loc) : M (World L S) string :=
  fun w => match metaOf (heap w) a with
           | Some m => Returned (ResourceVersion m) w
           | None => Panicked w
           end.

Definition GetUID (a : option loc) : M (World L S) string :=
  fun w => match metaOf (heap w) a with
           | Some m => Returned (UID m) w
           | None => Panicked w
           end.

Definition SetResourceVersion (a : option loc) (rv : string) : M (World L S) unit :=
  match a with
  | Some l => onHeap (fun h => (tt, setMeta l (withResourceVersion rv) h))
  | None => panic
  end.

Definition SetUID (a : option loc) (uid : string) : M (World L S) unit :=
  match a with
  | Some l => onHeap (fun h => (tt, setMeta l (withUID uid) h))
  | None => panic
  end.

(** Modelled from the spec: [enrichObject] is declared outside part_000.
    Section 4.1: "given source (authoritative identity owner) and target
    (about to be persisted into the secondary store), copy uniqueID and
    versionToken from source onto target; additionally copy forward any
    labels/annotations the secondary write would otherwise be missing,
    without overwriting fields explicitly set by the caller on target".
    [Create] "reconciles identity from the created primary result onto
    the original input object" by [enrichObject(accessorOld,
    accessorCreated)], so the target is the first argument and the source
    the second.  Section 7: an accessor that could not be obtained
    "degrades identity reconciliation to a no-op". *)
Definition enrich (target source : option loc) (h : gmap loc Obj) : gmap loc Obj :=
  match target, metaOf h source with
  | Some t, Some ms =>
      setMeta t (fun mt => mkMeta (UID ms) (ResourceVersion ms)
                                  (Labels mt ∪ Labels ms)
                                  (Annotations mt ∪ Annotations ms)) h
  | _, _ => h
  end.

Definition enrichObject (target source : option loc) : M (World L S) unit :=
  onHeap (fun h => (tt, enrich target source h)).

Variable d : DualWriterMode1 L S.

(** [accessorCreated, err := ...] and [accessorOld, err := ...] assign the
    [err] declared by the first statement (each declares one new variable
    on its left), while the [err] inside the closure is its own: the final
    [return res, err] yields what [meta.Accessor(obj)] answered. *)
Definition Create (obj : runtime_Object) (createValidation : ValidateObjectFunc)
    (options : CreateOptions) : M (World L S) (runtime_Object * error) :=
  let method := "create" in
  let* (res, err) := legacyCall (st_Create (Legacy d) obj createValidation options) in
  observe (StoreCall Primary OpCreate res err);;
  if isErr err then
    logError "unable to create object in legacy storage";;
    recordLegacyDuration true mode (co_Kind options) method;;
    ret (res, err)
  else
    recordLegacyDuration false mode (co_Kind options) method;;
    let* (accessorCreated, err) := metaAccessor res in
    whenErr err (logError "unable to get accessor for created object");;
    let* (accessorOld, err) := metaAccessor obj in
    whenErr err (logError "unable to get accessor for old object");;
    enrichObject accessorOld accessorCreated;;
    go (GoCreate obj createValidation options);;
    ret (res, err).

Definition Get (name : string) (options : GetOptions)
  : M (World L S) (runtime_Object * error) :=
  let method := "get" in
  let* (res, err) := legacyCall (st_Get (Legacy d) name options) in
  observe (StoreCall Primary OpGet res err);;
  if isErr err then
    logError "unable to get object in legacy storage";;
    recordLegacyDuration true mode name method;;
    ret (res, err)
  else
    recordLegacyDuration false mode name method;;
    go (GoGet name options);;
    ret (res, err).

Definition List (options : ListOptions) : M (World L S) (runtime_Object * error) :=
  let method := "list" in
  let* (res, err) := legacyCall (st_List (Legacy d) options) in
  observe (StoreCall Primary OpList res err);;
  if isErr err then
    logError "unable to list object in legacy storage";;
    recordLegacyDuration true mode (lo_Kind options) method;;
    ret (res, err)
  else
    recordLegacyDuration false mode (lo_Kind options) method;;
    go (GoList options);;
    ret (res, err).

Definition Delete (name : string) (deleteValidation : ValidateObjectFunc)
    (options : DeleteOptions) : M (World L S) (runtime_Object * bool * error) :=
  let method := "delete" in
  let* (res, async, err) := legacyCall (st_Delete (Legacy d) name deleteValidation options) in
  observe (StoreCall Primary OpDelete res err);;
  if isErr err then
    logError "unable to delete object in legacy storage";;
    recordLegacyDuration true mode name method;;
    ret (res, async, err)
  else
    recordLegacyDuration false mode name method;;
    go (GoDelete name deleteValidation options);;
    ret (res, async, err).

(** No [return] inside the error branch: the statements after it run on
    both paths. *)
Definition DeleteCollection (deleteValidation : ValidateObjectFunc) (options : DeleteOptions)
    (listOptions : ListOptions) : M (World L S) (runtime_Object * error) :=
  let method := "delete-collection" in
  let* (res, err) :=
    legacyCall (st_DeleteCollection (Legacy d) deleteValidation options listOptions) in
  observe (StoreCall Primary OpDeleteCollection res err);;
  (if isErr err then
     logError "unable to delete collection in legacy storage";;
     recordLegacyDuration true mode (do_Kind options) method
   else ret tt);;
  recordLegacyDuration false mode (do_Kind options) method;;
  go (GoDeleteCollection deleteValidation options listOptions);;
  ret (res, err).

(** As in [DeleteCollection], the error branch does not return.  The
    [err] of the inner block is a fresh variable; the caller gets
    [errLegacy]. *)
Definition Update (name : string) (objInfo : UpdatedObjectInfo)
    (createValidation : ValidateObjectFunc) (updateValidation : ValidateObjectUpdateFunc)
    (forceAllowCreate : bool) (options : UpdateOptions)
  : M (World L S) (runtime_Object * bool * error) :=
  let method := "update" in
  let* (res, async, errLegacy) :=
    legacyCall (st_Update (Legacy d) name objInfo createValidation updateValidation
                          forceAllowCreate options) in
  observe (StoreCall Primary OpUpdate res errLegacy);;
  (if isErr errLegacy then
     logError "unable to update in legacy storage";;
     recordLegacyDuration true mode name method
   else ret tt);;
  recordLegacyDuration false mode name method;;
  let* (updated, err) := onHeap (UpdatedObject objInfo res) in
  observe (DirectiveCall res updated err);;
  whenErr err (logError "could not update or create object");;
  let* (old, err) := storageCall (st_Get (Storage d) name (mkGetOptions "" "")) in
  observe (StoreCall Secondary OpGet old err);;
  whenErr err (logError "could not get object to update");;
  let* objInfo :=
    match old with
    | Some _ =>
        let objInfo := updateWrapper objInfo old in
        let* (accessorOld, err) := metaAccessor old in
        whenErr err (logError "unable to get accessor for original updated object");;
        let* (accessor, err) := metaAccessor res in
        whenErr err (logError "unable to get accessor for updated object");;
        let* rv := GetResourceVersion accessorOld in
        SetResourceVersion accessor rv;;
        let* uid := GetUID accessorOld in
        SetUID accessor uid;;
        enrichObject accessorOld accessor;;
        ret (updateWrapper objInfo res)
    | None => ret objInfo
    end in
  go (GoUpdate name objInfo createValidation updateValidation forceAllowCreate options);;
  ret (res, async, errLegacy).

Definition Destroy : M (World L S) unit :=
  storageCall (fun s h => (tt, st_Destroy (Storage d) s, h));;
  observe (StoreCall Secondary OpDestroy None None);;
  legacyCall (fun l h => (tt, st_Destroy (Legacy d) l, h));;
  observe (StoreCall Primary OpDestroy None None).

Definition GetSingularName : M (World L S) string :=
  let* r := legacyCall (fun l h => (st_GetSingularName (Legacy d) l, l, h)) in
  observe (StoreCall Primary OpGetSingularName None None);;
  ret r.

Definition NamespaceScoped : M (World L S) bool :=
  let* r := legacyCall (fun l h => (st_NamespaceScoped (Legacy d) l, l, h)) in
  observe (StoreCall Primary OpNamespaceScoped None None);;
  ret r.

Definition New : M (World L S) runtime_Object :=
  let* r := legacyCall (fun l h => let '(o, h') := st_New (Legacy d) l h in (o, l, h')) in
  observe (StoreCall Primary OpNew r None);;
  ret r.

Definition NewList : M (World L S) runtime_Object :=
  let* r := storageCall (fun s h => let '(o, h') := st_NewList (Storage d) s h in (o, s, h')) in
  observe (StoreCall Secondary OpNewList r None);;
  ret r.

Definition ConvertToTable (object tableOptions : runtime_Object)
  : M (World L S) (option Table * error) :=
  let* (t, err) := legacyCall (st_ConvertToTable (Legacy d) object tableOptions) in
  observe (StoreCall Primary OpConvertToTable None err);;
  ret (t, err).

(** The body of the closure a method launched: one call on the secondary
    store, then the deferred [recordStorageDuration]. *)
Definition runTask (t : Task) : M (World L S) unit :=
  match t with
  | GoCreate obj createValidation options =>
      let* (_, err) := storageCall (st_Create (Storage d) obj createValidation options) in
      recordStorageDuration (isErr err) mode (co_Kind options) "create"
  | GoGet name options =>
      let* (_, err) := storageCall (st_Get (Storage d) name options) in
      recordStorageDuration (isErr err) mode name "get"
  | GoList options =>
      let* (_, err) := storageCall (st_List (Storage d) options) in
      recordStorageDuration (isErr err) mode (lo_Kind options) "list"
  | GoDelete name deleteValidation options =>
      let* (_, _, err) := storageCall (st_Delete (Storage d) name deleteValidation options) in
      recordStorageDuration (isErr err) mode name "delete"
  | GoDeleteCollection deleteValidation options listOptions =>
      let* (_, err) :=
        storageCall (st_DeleteCollection (Storage d) deleteValidation options listOptions) in
      recordStorageDuration (isErr err) mode (do_Kind options) "delete-collection"
  | GoUpdate name objInfo createValidation updateValidation forceAllowCreate options =>
      let* (_, _, err) :=
        storageCall (st_Update (Storage d) name objInfo createValidation updateValidation
                               forceAllowCreate options) in
      recordStorageDuration (isErr err) mode name "update"
  end.

End Synchronizer.

(** ** Sample backends

    Small stores used to run the synchronizer on concrete inputs. *)

(** A backend that answers every call with the reference [r] and the
    error [e], and allocates nothing. *)
Definition answering (r : runtime_Object) (e : error) : RestStorage unit :=
  mkStorage unit
    (fun _ _ _ s h => ((r, e), s, h))
    (fun _ _ s h => ((r, e), s, h))
    (fun _ s h => ((r, e), s, h))
    (fun _ _ _ s h => ((r, false, e), s, h))
    (fun _ _ _ s h => ((r, e), s, h))
    (fun _ _ _ _ _ _ s h => ((r, false, e), s, h))
    (fun s => s)
    (fun _ => "dashboard")
    (fun _ => true)
    (fun _ h => (r, h))
    (fun _ h => (r, h))
    (fun _ _ s h => ((None, e), s, h)).

(** An unreachable backend. *)
Definition failing (msg : string) : RestStorage unit := answering None (Some msg).

(** A backend that holds one object, at [l]. *)
Definition holding (l : loc) : RestStorage unit := answering (Some l) None.

Definition bodyOf (h : gmap loc Obj) (o : runtime_Object) : string :=
  match o ≫= (h !!.) with Some x => body x | None => "" end.

(** A backend that stores what it is given under the identity it mints:
    [Create] and [Update] allocate the stored copy at the next free
    location (the state) with UID [uid] and resource version [rv]. *)
Definition minting (uid rv : string) : RestStorage nat :=
  mkStorage nat
    (fun obj _ _ n h =>
       ((Some n, None), Datatypes.S n, <[n := mkObj (Some (mkMeta uid rv ∅ ∅)) (bodyOf h obj)]> h))
    (fun _ _ n h => ((None, Some "not found"), n, h))
    (fun _ n h => ((None, None), n, h))
    (fun _ _ _ n h => ((None, false, None), n, h))
    (fun _ _ _ n h => ((None, None), n, h))
    (fun _ objInfo _ _ _ _ n h =>
       let '((new, _), h') := UpdatedObject objInfo None h in
       ((Some n, false, None), Datatypes.S n,
        <[n := mkObj (Some (mkMeta uid rv ∅ ∅)) (bodyOf h' new)]> h'))
    (fun n => n)
    (fun _ => "dashboard")
    (fun _ => true)
    (fun n h => (None, h))
    (fun n h => (None, h))
    (fun _ _ n h => ((Some [["name"]], None), n, h)).

Definition noValidation : ValidateObjectFunc := fun _ _ => None.
Definition noUpdateValidation : ValidateObjectUpdateFunc := fun _ _ _ => None.

(** A directive that keeps the current object. *)
Definition keepCurrent : UpdatedObjectInfo := objectInfo (fun h cur => ((cur, None), h)).

Definition emptyWorld {L S} (h : gmap loc Obj) (l : L) (s : S) : World L S :=
  mkWorld h l s [] [] [] [].

(** The caller's object [{name: "a"}], without identity, at location 0. *)
Definition heapA : gmap loc Obj := {[ 0 := mkObj (Some (mkMeta "" "" ∅ ∅)) "a" ]}.

(** An object of a type without [ObjectMeta], at location 0. *)
Definition heapStatus : gmap loc Obj := {[ 0 := mkObj None "status" ]}.

(** The primary copy at 1 and the secondary store's own copy at 2. *)
Definition heapBoth : gmap loc Obj :=
  {[ 1 := mkObj (Some (mkMeta "u1" "5" ∅ ∅)) "a";
     2 := mkObj (Some (mkMeta "s1" "9" ∅ ∅)) "a" ]}.

(** The heap after [dwMinting] created its copy of the object at 0. *)
Definition heapCreated : gmap loc Obj :=
  <[1 := mkObj (Some (mkMeta "u1" "v1" ∅ ∅)) "a"]> heapA.

(** The legacy store is down; the secondary store holds the object at 0. *)
Definition dwLegacyDown : DualWriterMode1 unit unit :=
  mkDualWriterMode1 (failing "boom") (holding 0).

(** The legacy store mints [u1]/[v1]; the secondary store is down. *)
Definition dwMinting : DualWriterMode1 nat unit :=
  mkDualWriterMode1 (minting "u1" "v1") (failing "down").

(** The legacy store answers with the object at 1; the secondary store
    holds its own copy at 2. *)
Definition dwBoth : DualWriterMode1 unit unit :=
  mkDualWriterMode1 (holding 1) (holding 2).

(** The same legacy store in front of a secondary store that is down. *)
Definition dwAlone : DualWriterMode1 unit unit :=
  mkDualWriterMode1 (holding 1) (failing "down").

(** The legacy store is down and so is the secondary store. *)
Definition dwAllDown : DualWriterMode1 unit unit :=
  mkDualWriterMode1 (failing "boom") (failing "down").

(** ** What a run leaves behind *)

Definition isSecondary (r : Role) : bool :=
  match r with Secondary => true | Primary => false end.

Definition secondaryRecords (ms : list DurationRecord) : list DurationRecord :=
  List.filter (fun r => isSecondary (rec_role r)) ms.

Definition primaryRecords (ms : list DurationRecord) : list DurationRecord :=
  List.filter (fun r => negb (isSecondary (rec_role r))) ms.

Definition isSecondaryCall (c : Call) : bool :=
  match c with
  | StoreCall r _ _ _ => isSecondary r
  | DirectiveCall _ _ _ => false
  end.

Definition secondaryCalls (cs : list Call) : list Call := List.filter isSecondaryCall cs.

(** Between [w] and [w'] nothing touched the secondary store: no task was
    launched, no call reached it, no record of its was finalized. *)
Definition mirrorFree {L S} (w w' : World L S) : Prop :=
  spawned w' = spawned w /\
  storage_st w' = storage_st w /\
  secondaryCalls (calls w') = secondaryCalls (calls w) /\
  secondaryRecords (metrics w') = secondaryRecords (metrics w).

(** Between [w] and [w'] the secondary store was not reached, none of its
    records was finalized, and at most one task was launched. *)
Definition shadowOnly {L S} (w w' : World L S) : Prop :=
  storage_st w' = storage_st w /\
  secondaryCalls (calls w') = secondaryCalls (calls w) /\
  secondaryRecords (metrics w') = secondaryRecords (metrics w) /\
  (spawned w' = spawned w \/ exists t, spawned w' = (spawned w ++ [t])%list).

(** The primary-store records of one call of a method whose error branch
    does not return ([DeleteCollection], [Update]), by the legacy outcome. *)
Definition fallThroughRecords (Mode1 : Z) (err : error) (name method : string)
  : list DurationRecord :=
  if isErr err
  then [mkRecord Primary true (mode Mode1) name method;
        mkRecord Primary false (mode Mode1) name method]
  else [mkRecord Primary false (mode Mode1) name method].

(** What the caller of a method can see of its run: the returned values
    (none after a panic), the objects, and the primary store. *)
Definition callerView {L S A} (o : Outcome (World L S) A) : option A * gmap loc Obj * L :=
  (returnValue o, heap (finalWorld o), legacy_st (finalWorld o)).

(** ** The IRM essentials checklist

    [useGetEssentialsConfiguration] of src/unnamed/part_001: the
    checklist built from what the hooks report, and the two counters
    reduced from it.  [done?: boolean] is an [option bool], [None] being
    [undefined]; the click handler of the drop-down button is not data
    and is left out. *)

Module Essentials.

Record UrlLink := mkUrlLink {
  url : string;
  queryParams : option (list (string * string))
}.

Inductive ButtonType := openLink | dropDown.

Record StepButtonDto := mkButton {
  type : ButtonType;
  label : string;
  labelOnDone : option string;
  done : option bool;
  urlLink : option UrlLink;
  urlLinkOnDone : option UrlLink;
  options : option (list (string * string))
}.

Record SectionDtoStep := mkStep {
  step_title : string;
  step_description : string;
  button : StepButtonDto
}.

Record SectionDto := mkSection {
  title : string;
  description : string;
  steps : list SectionDtoStep
}.

Record SectionsDto := mkSections { sections : list SectionDto }.

(** What the hooks called at the top of the function report. *)
Record Hooks := mkHooks {
  defaultContactPoint : string;
  contactPointReady : option bool;
  onCallContactPointReady : option bool;
  createAlertRuleDone : option bool;
  hasSlos : option bool;
  hasSlosWithAlerting : option bool;
  incidentInstalled : option bool;
  chatOpsConnected : option bool;
  incidentChatOpsInstalled : option bool;
  integrationChatOpsConnected : option bool;
  onCallOptions : list (string * string)
}.

Definition link (u : string) : option UrlLink := Some (mkUrlLink u None).

Definition linkWith (u : string) (q : list (string * string)) : option UrlLink :=
  Some (mkUrlLink u (Some q)).

Definition essentialContent (k : Hooks) : SectionsDto :=
  mkSections
    [ mkSection "Detect" "Configure Grafana Alerting"
        [ mkStep "Update default email contact point"
            "Add a valid email to the default email contact point."
            (mkButton openLink "Edit" (Some "View") (contactPointReady k)
               (linkWith ("/alerting/notifications/receivers/" +:+ defaultContactPoint k
                          +:+ "/edit")
                         [("alertmanager", "grafana")])
               (link "/alerting/notifications") None);
          mkStep "Connect alerting to OnCall"
            "OnCall allows precisely manage your on-call strategy and use multiple channels to deliver"
            (mkButton openLink "Connect" (Some "View") (onCallContactPointReady k)
               (link "/alerting/notifications/receivers/new")
               (link "/alerting/notifications") None);
          mkStep "Create alert rule" "Create an alert rule to monitor your system."
            (mkButton openLink "Create" (Some "View") (createAlertRuleDone k)
               (link "/alerting/new") (link "/alerting/list") None);
          mkStep "Create your first SLO" "Create SLOs to monitor your service."
            (mkButton openLink "Create" (Some "View") (hasSlos k)
               (link "/a/grafana-slo-app/wizard/new")
               (link "/a/grafana-slo-app/manage-slos") None);
          mkStep "Enable SLO alerting"
            "Configure SLO alerting to receive notifications when your SLOs are breached."
            (mkButton openLink "Enable" (Some "View") (hasSlosWithAlerting k)
               (linkWith "/a/grafana-slo-app/manage-slos" [("alertsEnabled", "disabled")])
               (linkWith "/a/grafana-slo-app/manage-slos" [("alertsEnabled", "enabled")])
               None) ];
      mkSection "Respond" "Configure OnCall and Incident"
        [ mkStep "Initialize Incident plugin"
            "Initialize the Incident plugin to declare and manage incidents."
            (mkButton openLink "Initialize" (Some "View") (incidentInstalled k)
               (link "/a/grafana-incident-app/walkthrough/generate-key")
               (link "/a/grafana-incident-app") None);
          mkStep "Connect your Messaging workspace to OnCall"
            "Receive alerts and oncall notifications within your chat environment."
            (mkButton openLink "Connect" (Some "View") (chatOpsConnected k)
               (linkWith "/a/grafana-oncall-app/settings"
                         [("tab", "ChatOps"); ("chatOpsTab", "Slack")])
               (linkWith "/a/grafana-oncall-app/settings" [("tab", "ChatOps")]) None);
          mkStep "Connect your Messaging workspace to Incident"
            "Automatically create an incident channel and manage incidents directly within your chat environment."
            (mkButton openLink "Connect" None (incidentChatOpsInstalled k)
               (link "/a/grafana-incident-app/integrations/grate.slack")
               (link "/a/grafana-incident-app/integrations") None);
          mkStep "Add Messaging workspace channel to OnCall Integration"
            "Select ChatOps channels to route notifications"
            (mkButton openLink "Add" (Some "View") (integrationChatOpsConnected k)
               (link "/a/grafana-oncall-app/integrations/")
               (link "/a/grafana-oncall-app/integrations/") None) ];
      mkSection "Test your configuration" ""
        [ mkStep "Send OnCall demo alert"
            "In the integration page, click Send demo alert, to review your notification"
            (mkButton dropDown "Select integration" None None None None
               (Some (onCallOptions k)));
          mkStep "Create Incident drill" "Practice solving an Incident"
            (mkButton openLink "Start drill" None None
               (linkWith "/a/grafana-incident-app" [("declare", "new"); ("drill", "1")])
               None None) ] ].

(** JavaScript truthiness of a [boolean | undefined]. *)
Definition truthy (b : option bool) : bool :=
  match b with Some true => true | _ => false end.

Definition defined (b : option bool) : bool :=
  match b with Some _ => true | None => false end.

Record Counts := mkCounts { stepsDone : nat; totalStepsToDo : nat }.

(** [section.steps.filter((step) => step.button.done).length] *)
Definition sectionDone (s : SectionDto) : nat :=
  length (List.filter (fun step => truthy (done (button step))) (steps s)).

(** [section.steps.reduce((acc, step) => (step.button.done !== undefined ? acc + 1 : acc), 0)] *)
Definition sectionToDo (s : SectionDto) : nat :=
  fold_left (fun acc step => if defined (done (button step)) then acc + 1 else acc)
            (steps s) 0.

Definition countSteps (c : SectionsDto) : Counts :=
  fold_left
    (fun acc section =>
       mkCounts (stepsDone acc + sectionDone section)
                (totalStepsToDo acc + sectionToDo section))
    (sections c) (mkCounts 0 0).

Definition useGetEssentialsConfiguration (k : Hooks) : SectionsDto * Counts :=
  (essentialContent k, countSteps (essentialContent k)).

(** The nine flags of the checklist, in the order of its steps. *)
Definition flags (k : Hooks) : list (option bool) :=
  [contactPointReady k; onCallContactPointReady k; createAlertRuleDone k; hasSlos k;
   hasSlosWithAlerting k; incidentInstalled k; chatOpsConnected k;
   incidentChatOpsInstalled k; integrationChatOpsConnected k].

End Essentials.

(** The [done] of every step of a checklist, section after section. *)
Definition stepFlags (c : Essentials.SectionsDto) : list (option bool) :=
  List.concat
    (List.map (fun s => List.map (fun step => Essentials.done (Essentials.button step))
                                 (Essentials.steps s))
              (Essentials.sections c)).

(** ** Object summaries as SQL columns

    [summarySupport] of pkg/services/store/object/sqlstash/summary_handler.go.
    [object.ObjectSummary] and encoding/json are declared elsewhere: the
    types of the [Labels], [Fields] and [Error] fields, their zero values,
    [len] and the JSON codec at each type are parameters.  A [*string] is
    an [option string]. *)

Module SummaryHandler.
Section WithJSON.

Variables LabelsT FieldsT ErrorInfoT : Type.
Variable lenLabels : LabelsT -> nat.
Variable lenFields : FieldsT -> nat.
Variable zeroLabels : LabelsT.
Variable zeroFields : FieldsT.

(** [json.Marshal(v)] at the three types. *)
Variable marshalLabels : LabelsT -> string * error.
Variable marshalFields : FieldsT -> string * error.
Variable marshalError : ErrorInfoT -> string * error.

(** [json.Unmarshal(b, &target)] at the three types: from the bytes and
    the target's current value to its new value. *)
Variable unmarshalLabels : string -> LabelsT -> LabelsT * error.
Variable unmarshalFields : string -> FieldsT -> FieldsT * error.
Variable unmarshalError : string -> option ErrorInfoT -> option ErrorInfoT * error.





End WithJSON.
End SummaryHandler.



(** * Properties *)

Local Open Scope list_scope.

Ltac dw_unfold :=
  unfold Create, Get, List, Delete, DeleteCollection, Update, Destroy, GetSingularName,
    NamespaceScoped, New, NewList, ConvertToTable, runTask, enrichObject, metaAccessor,
    GetResourceVersion, GetUID, SetResourceVersion, SetUID, recordLegacyDuration,
    recordStorageDuration, record, logError, observe, go, legacyCall, storageCall, onHeap,
    whenErr, bind, ret, panic, callerView, finalWorld, returnValue;
  cbn [heap legacy_st storage_st metrics calls spawned logs Legacy Storage].

Lemma secondaryRecords_app (a b : list DurationRecord) :
  secondaryRecords (a ++ b) = secondaryRecords a ++ secondaryRecords b.
Proof. apply List.filter_app. Qed.

Lemma primaryRecords_app (a b : list DurationRecord) :
  primaryRecords (a ++ b) = primaryRecords a ++ primaryRecords b.
Proof. apply List.filter_app. Qed.

Lemma secondaryCalls_app (a b : list Call) :
  secondaryCalls (a ++ b) = secondaryCalls a ++ secondaryCalls b.
Proof. apply List.filter_app. Qed.

Arguments metaOf : simpl never.
Arguments setMeta : simpl never.
Arguments enrich : simpl never.

(** Reading identity back after an in-place write through an accessor. *)
Lemma metaOf_setMeta (l l' : loc) (f : ObjectMeta -> ObjectMeta) (h : gmap loc Obj) :
  metaOf (setMeta l f h) (Some l') =
  if decide (l = l') then f <$> metaOf h (Some l') else metaOf h (Some l').
Proof.
  unfold metaOf, setMeta. cbn [mbind option_bind]. rewrite lookup_alter.
  case_decide as E; [subst l'|reflexivity].
  destruct (h !! l) as [x|]; reflexivity.
Qed.

Lemma metaOf_setMeta_nil (l : loc) (f : ObjectMeta -> ObjectMeta) (h : gmap loc Obj) :
  metaOf (setMeta l f h) None = None.
Proof. reflexivity. Qed.

Lemma Accessor_Some (h : gmap loc Obj) (o : runtime_Object) (m : ObjectMeta) :
  metaOf h o = Some m -> Accessor h o = (o, None).
Proof. intros H. unfold Accessor. now rewrite H. Qed.

Lemma Accessor_None (h : gmap loc Obj) (o : runtime_Object) :
  metaOf h o = None -> Accessor h o = (None, Some errNotObject).
Proof. intros H. unfold Accessor. now rewrite H. Qed.

Lemma metaOf_Some_ref (h : gmap loc Obj) (o : runtime_Object) (m : ObjectMeta) :
  metaOf h o = Some m -> exists l, o = Some l.
Proof. destruct o as [l|]; [eauto|discriminate]. Qed.

Section Properties.

Variable Mode1 : Z.
Context {L S : Type}.
Variable d : DualWriterMode1 L S.

(** C8.  [GetSingularName], [NamespaceScoped], [New] and [ConvertToTable]
    return what the legacy store returns for the same arguments, [NewList]
    returns what the secondary store's [NewList] returns, and [Destroy]
    destroys both stores. *)
Theorem passthrough_delegation (w : World L S) :
  returnValue (GetSingularName d w) = Some (st_GetSingularName (Legacy d) (legacy_st w)) /\
  returnValue (NamespaceScoped d w) = Some (st_NamespaceScoped (Legacy d) (legacy_st w)) /\
  returnValue (New d w) = Some (st_New (Legacy d) (legacy_st w) (heap w)).1 /\
  (forall object tableOptions,
     returnValue (ConvertToTable d object tableOptions w) =
     Some (st_ConvertToTable (Legacy d) object tableOptions (legacy_st w) (heap w)).1.1) /\
  returnValue (NewList d w) = Some (st_NewList (Storage d) (storage_st w) (heap w)).1 /\
  (exists w', Destroy d w = Returned tt w' /\
     legacy_st w' = st_Destroy (Legacy d) (legacy_st w) /\
     storage_st w' = st_Destroy (Storage d) (storage_st w) /\
     calls w' = calls w ++ [StoreCall Secondary OpDestroy None None;
                            StoreCall Primary OpDestroy None None]).
Proof.
  repeat split.
  - dw_unfold. destruct (st_New _ _ _); reflexivity.
  - intros object tableOptions. dw_unfold.
    destruct (st_ConvertToTable _ _ _ _ _) as [[[t e] l] h]; reflexivity.
  - dw_unfold. destruct (st_NewList _ _ _); reflexivity.
  - eexists. dw_unfold. repeat split. cbn. now rewrite <- app_assoc.
Qed.

(** C6.  When the legacy [Create] fails, [Create] returns that error at
    once, finalizes exactly one record, a primary-store failure, and
    launches no secondary [Create]. *)
Theorem Create_primary_failure obj createValidation options (w : World L S) res e l1 h1 :
  st_Create (Legacy d) obj createValidation options (legacy_st w) (heap w)
    = ((res, Some e), l1, h1) ->
  exists w',
    Create Mode1 d obj createValidation options w = Returned (res, Some e) w' /\
    metrics w' = metrics w ++ [mkRecord Primary true (mode Mode1) (co_Kind options) "create"] /\
    calls w' = calls w ++ [StoreCall Primary OpCreate res (Some e)] /\
    heap w' = h1 /\
    mirrorFree w w'.
Proof.
  intros H. eexists. dw_unfold. rewrite H. cbn.
  repeat split; cbn.
  - rewrite secondaryCalls_app. cbn. apply app_nil_r.
  - rewrite secondaryRecords_app. cbn. apply app_nil_r.
Qed.

(** C9.  When the legacy call of [Create], [Get], [List] or [Delete]
    answers an error, the method returns it after that one call: it
    launches no task, reaches the secondary store through no call, and
    finalizes no secondary-store record. *)
Theorem no_mirror_after_primary_error (w : World L S) :
  (forall obj createValidation options res e l1 h1,
     st_Create (Legacy d) obj createValidation options (legacy_st w) (heap w)
       = ((res, Some e), l1, h1) ->
     let out := Create Mode1 d obj createValidation options w in
     returnValue out = Some (res, Some e) /\
     calls (finalWorld out) = calls w ++ [StoreCall Primary OpCreate res (Some e)] /\
     mirrorFree w (finalWorld out)) /\
  (forall name options res e l1 h1,
     st_Get (Legacy d) name options (legacy_st w) (heap w) = ((res, Some e), l1, h1) ->
     let out := Get Mode1 d name options w in
     returnValue out = Some (res, Some e) /\
     calls (finalWorld out) = calls w ++ [StoreCall Primary OpGet res (Some e)] /\
     mirrorFree w (finalWorld out)) /\
  (forall options res e l1 h1,
     st_List (Legacy d) options (legacy_st w) (heap w) = ((res, Some e), l1, h1) ->
     let out := List Mode1 d options w in
     returnValue out = Some (res, Some e) /\
     calls (finalWorld out) = calls w ++ [StoreCall Primary OpList res (Some e)] /\
     mirrorFree w (finalWorld out)) /\
  (forall name deleteValidation options res async e l1 h1,
     st_Delete (Legacy d) name deleteValidation options (legacy_st w) (heap w)
       = ((res, async, Some e), l1, h1) ->
     let out := Delete Mode1 d name deleteValidation options w in
     returnValue out = Some (res, async, Some e) /\
     calls (finalWorld out) = calls w ++ [StoreCall Primary OpDelete res (Some e)] /\
     mirrorFree w (finalWorld out)).
Proof.
  repeat apply conj; intros; subst out; dw_unfold; rewrite H; cbn;
    (repeat split; cbn;
     [rewrite secondaryCalls_app|rewrite secondaryRecords_app]; cbn; apply app_nil_r).
Qed.

(** C10.  Every [Update], whatever the legacy store answered and whether
    the run then returns or panics, has by its end resolved the caller's
    directive against the legacy result and read [name] from the
    secondary store, in this order and on the caller's path; the triple
    it returns, unless it panics, is the legacy store's. *)
Theorem Update_reads_secondary_on_caller_path name objInfo createValidation updateValidation
    forceAllowCreate options (w : World L S) :
  let out := Update Mode1 d name objInfo createValidation updateValidation
                    forceAllowCreate options w in
  exists res async errLegacy l1 h1 updated e1 h2 old e2 h3,
    st_Update (Legacy d) name objInfo createValidation updateValidation forceAllowCreate
              options (legacy_st w) (heap w) = ((res, async, errLegacy), l1, h1) /\
    UpdatedObject objInfo res h1 = ((updated, e1), h2) /\
    st_Get (Storage d) name (mkGetOptions "" "") (storage_st w) h2
      = ((old, e2), storage_st (finalWorld out), h3) /\
    calls (finalWorld out) =
      calls w ++ [StoreCall Primary OpUpdate res errLegacy;
                  DirectiveCall res updated e1;
                  StoreCall Secondary OpGet old e2] /\
    (returnValue out = Some (res, async, errLegacy) \/ returnValue out = None).
Proof.
  intros out. subst out.
  destruct (st_Update (Legacy d) name objInfo createValidation updateValidation
              forceAllowCreate options (legacy_st w) (heap w))
    as [[[[res async] errLegacy] l1] h1] eqn:H1.
  destruct (UpdatedObject objInfo res h1) as [[updated e1] h2] eqn:H2.
  destruct (st_Get (Storage d) name (mkGetOptions "" "") (storage_st w) h2)
    as [[[old e2] s3] h3] eqn:H3.
  exists res, async, errLegacy, l1, h1, updated, e1, h2, old, e2, h3.
  split; [reflexivity|]. split; [exact H2|].
  dw_unfold. rewrite H1. cbn.
  destruct errLegacy as [e|]; cbn; rewrite H2; cbn;
    destruct e1 as [x1|]; cbn; rewrite H3; cbn;
    destruct e2 as [x2|]; cbn;
    (destruct old as [lo|]; cbn;
     [ destruct (Accessor h3 (Some lo)) as [ao eo] eqn:HA; cbn;
       destruct eo; cbn;
       destruct (Accessor h3 res) as [ar er] eqn:HB; cbn;
       destruct er; cbn;
       destruct (metaOf h3 ao) as [mo|]; cbn;
       try (destruct ar as [lr|]; cbn;
            try destruct (metaOf _ ao) as [mo'|]; cbn)
     | ]);
    rewrite <- ?app_assoc; cbn;
    (split; [reflexivity|split; [reflexivity|]]); auto.
Qed.

(** *** Runs of [Create] and [Update], step by step *)

Lemma Update_returns_legacy_triple name objInfo createValidation updateValidation
    forceAllowCreate options (w : World L S) r :
  returnValue (Update Mode1 d name objInfo createValidation updateValidation
                      forceAllowCreate options w) = Some r ->
  r = (st_Update (Legacy d) name objInfo createValidation updateValidation forceAllowCreate
                 options (legacy_st w) (heap w)).1.1.
Proof.
  dw_unfold.
  destruct (st_Update _ _ _ _ _ _ _ _ _) as [[[[res async] [e|]] l1] h1]; cbn;
    destruct (UpdatedObject objInfo res h1) as [[updated [x1|]] h2]; cbn;
    destruct (st_Get _ _ _ _ _) as [[[[lo|] [x2|]] s3] h3]; cbn;
    try (destruct (Accessor h3 (Some lo)) as [ao [x3|]]; cbn;
         destruct (Accessor h3 res) as [[lr|] [x4|]]; cbn;
         destruct (metaOf h3 ao) as [mo|]; cbn;
         try destruct (metaOf _ ao) as [mo'|]; cbn);
    intros Hr; try discriminate; now inversion Hr.
Qed.

Lemma Create_success_run obj createValidation options (w : World L S) res l1 h1 :
  st_Create (Legacy d) obj createValidation options (legacy_st w) (heap w)
    = ((res, None), l1, h1) ->
  exists w',
    Create Mode1 d obj createValidation options w = Returned (res, (Accessor h1 obj).2) w' /\
    heap w' = enrich (Accessor h1 obj).1 (Accessor h1 res).1 h1 /\
    legacy_st w' = l1 /\
    storage_st w' = storage_st w /\
    spawned w' = spawned w ++ [GoCreate obj createValidation options] /\
    metrics w' = metrics w ++ [mkRecord Primary false (mode Mode1) (co_Kind options) "create"].
Proof.
  intros H. dw_unfold. rewrite H. cbn.
  destruct (Accessor h1 res) as [ac [x|]]; cbn;
    destruct (Accessor h1 obj) as [ao [y|]]; cbn;
    eexists; repeat split.
Qed.

Lemma enrich_identity (h : gmap loc Obj) (target source : runtime_Object) mt ms :
  metaOf h target = Some mt ->
  metaOf h source = Some ms ->
  let h' := enrich target source h in
  uidOf h' target = Some (UID ms) /\ versionOf h' target = Some (ResourceVersion ms) /\
  uidOf h' source = Some (UID ms) /\ versionOf h' source = Some (ResourceVersion ms).
Proof.
  intros Ht Hs h'. subst h'.
  destruct (metaOf_Some_ref _ _ _ Ht) as [lt ->].
  destruct (metaOf_Some_ref _ _ _ Hs) as [ls ->].
  unfold enrich, uidOf, versionOf. rewrite Hs, !metaOf_setMeta.
  rewrite decide_True by reflexivity. rewrite Ht. cbn.
  case_decide as E; [subst ls; rewrite Ht in *|rewrite Hs]; cbn; auto.
Qed.

Lemma Update_found_run name objInfo createValidation updateValidation forceAllowCreate options
    (w : World L S) res async errLegacy l1 h1 updated e1 h2 lo e2 s3 h3 mo mr :
  st_Update (Legacy d) name objInfo createValidation updateValidation forceAllowCreate
            options (legacy_st w) (heap w) = ((res, async, errLegacy), l1, h1) ->
  UpdatedObject objInfo res h1 = ((updated, e1), h2) ->
  st_Get (Storage d) name (mkGetOptions "" "") (storage_st w) h2 = ((Some lo, e2), s3, h3) ->
  metaOf h3 (Some lo) = Some mo ->
  metaOf h3 res = Some mr ->
  exists w',
    Update Mode1 d name objInfo createValidation updateValidation forceAllowCreate options w
      = Returned (res, async, errLegacy) w' /\
    spawned w' = spawned w ++
      [GoUpdate name (updateWrapper (updateWrapper objInfo (Some lo)) res) createValidation
                updateValidation forceAllowCreate options] /\
    legacy_st w' = l1 /\ storage_st w' = s3 /\
    uidOf (heap w') res = Some (UID mo) /\
    versionOf (heap w') res = Some (ResourceVersion mo).
Proof.
  intros H1 H2 H3 Ho Hr.
  destruct (metaOf_Some_ref _ _ _ Hr) as [lr ->].
  dw_unfold. rewrite H1. cbn.
  assert (Hid : let h' := enrich (Some lo) (Some lr)
                   (setMeta lr (withUID (UID mo)) (setMeta lr (withResourceVersion (ResourceVersion mo)) h3)) in
                uidOf h' (Some lr) = Some (UID mo) /\
                versionOf h' (Some lr) = Some (ResourceVersion mo)).
  { set (h4 := setMeta lr _ (setMeta lr _ h3)).
    assert (Hr4 : metaOf h4 (Some lr) = Some (mkMeta (UID mo) (ResourceVersion mo) (Labels mr) (Annotations mr))).
    { subst h4. rewrite !metaOf_setMeta, !decide_True by reflexivity. now rewrite Hr. }
    assert (Ho4 : exists m, metaOf h4 (Some lo) = Some m).
    { subst h4. rewrite !metaOf_setMeta. case_decide; rewrite Ho; cbn; eauto. }
    destruct Ho4 as [m Ho4].
    destruct (enrich_identity h4 (Some lo) (Some lr) _ _ Ho4 Hr4) as (_ & _ & Hu & Hv).
    cbn in Hu, Hv. auto. }
  destruct errLegacy as [e|]; cbn; rewrite H2; cbn;
    destruct e1 as [x1|]; cbn; rewrite H3; cbn;
    destruct e2 as [x2|]; cbn;
    rewrite (Accessor_Some _ _ _ Ho); cbn; rewrite (Accessor_Some _ _ _ Hr); cbn;
    rewrite Ho; cbn;
    rewrite metaOf_setMeta;
    (case_decide as E; [subst lo; rewrite Ho; cbn|rewrite Ho; cbn]);
    eexists; (split; [reflexivity|]); cbn; repeat split; try apply Hid.
Qed.

Lemma Update_found_panics name objInfo createValidation updateValidation forceAllowCreate
    options (w : World L S) res async errLegacy l1 h1 updated e1 h2 lo e2 s3 h3 :
  st_Update (Legacy d) name objInfo createValidation updateValidation forceAllowCreate
            options (legacy_st w) (heap w) = ((res, async, errLegacy), l1, h1) ->
  UpdatedObject objInfo res h1 = ((updated, e1), h2) ->
  st_Get (Storage d) name (mkGetOptions "" "") (storage_st w) h2 = ((Some lo, e2), s3, h3) ->
  metaOf h3 (Some lo) = None \/ metaOf h3 res = None ->
  exists w',
    Update Mode1 d name objInfo createValidation updateValidation forceAllowCreate options w
      = Panicked w' /\
    spawned w' = spawned w.
Proof.
  intros H1 H2 H3 Hn.
  dw_unfold. rewrite H1. cbn.
  destruct errLegacy as [e|]; cbn; rewrite H2; cbn;
    destruct e1 as [x1|]; cbn; rewrite H3; cbn;
    destruct e2 as [x2|]; cbn;
    (destruct (metaOf h3 (Some lo)) as [mo|] eqn:Ho;
     [ destruct Hn as [Hn|Hn]; [discriminate|];
       rewrite (Accessor_Some _ _ _ Ho); cbn; rewrite (Accessor_None _ _ Hn); cbn;
       rewrite Ho; cbn
     | rewrite (Accessor_None _ _ Ho); cbn;
       destruct (Accessor h3 res) as [ar [x|]]; cbn ]);
    eexists; split; reflexivity.
Qed.

Lemma Update_absent_run name objInfo createValidation updateValidation forceAllowCreate
    options (w : World L S) res async errLegacy l1 h1 updated e1 h2 e2 s3 h3 :
  st_Update (Legacy d) name objInfo createValidation updateValidation forceAllowCreate
            options (legacy_st w) (heap w) = ((res, async, errLegacy), l1, h1) ->
  UpdatedObject objInfo res h1 = ((updated, e1), h2) ->
  st_Get (Storage d) name (mkGetOptions "" "") (storage_st w) h2 = ((None, e2), s3, h3) ->
  exists w',
    Update Mode1 d name objInfo createValidation updateValidation forceAllowCreate options w
      = Returned (res, async, errLegacy) w' /\
    spawned w' = spawned w ++
      [GoUpdate name objInfo createValidation updateValidation forceAllowCreate options] /\
    heap w' = h3 /\ legacy_st w' = l1 /\ storage_st w' = s3.
Proof.
  intros H1 H2 H3.
  dw_unfold. rewrite H1. cbn.
  destruct errLegacy as [e|]; cbn; rewrite H2; cbn;
    destruct e1 as [x1|]; cbn; rewrite H3; cbn;
    destruct e2 as [x2|]; cbn;
    eexists; repeat split.
Qed.

(** *** Duration records *)

(** [Create], [Get], [List] and [Delete] finalize one primary-store
    record per call, flagged with the outcome of the legacy call. *)
Lemma legacy_recorded_once (w : World L S) :
  (forall obj createValidation options,
     metrics (finalWorld (Create Mode1 d obj createValidation options w)) =
     metrics w ++
       [mkRecord Primary
          (isErr (st_Create (Legacy d) obj createValidation options
                            (legacy_st w) (heap w)).1.1.2)
          (mode Mode1) (co_Kind options) "create"]) /\
  (forall name options,
     metrics (finalWorld (Get Mode1 d name options w)) =
     metrics w ++
       [mkRecord Primary (isErr (st_Get (Legacy d) name options (legacy_st w) (heap w)).1.1.2)
          (mode Mode1) name "get"]) /\
  (forall options,
     metrics (finalWorld (List Mode1 d options w)) =
     metrics w ++
       [mkRecord Primary (isErr (st_List (Legacy d) options (legacy_st w) (heap w)).1.1.2)
          (mode Mode1) (lo_Kind options) "list"]) /\
  (forall name deleteValidation options,
     metrics (finalWorld (Delete Mode1 d name deleteValidation options w)) =
     metrics w ++
       [mkRecord Primary
          (isErr (st_Delete (Legacy d) name deleteValidation options
                            (legacy_st w) (heap w)).1.1.2)
          (mode Mode1) name "delete"]).
Proof.
  repeat apply conj; intros; dw_unfold.
  - destruct (st_Create _ _ _ _ _ _) as [[[res [e|]] l1] h1]; cbn; [reflexivity|].
    destruct (Accessor h1 res) as [ac [x|]]; cbn;
      destruct (Accessor h1 obj) as [ao [y|]]; reflexivity.
  - destruct (st_Get _ _ _ _ _) as [[[res [e|]] l1] h1]; reflexivity.
  - destruct (st_List _ _ _ _) as [[[res [e|]] l1] h1]; reflexivity.
  - destruct (st_Delete _ _ _ _ _ _) as [[[[res async] [e|]] l1] h1]; reflexivity.
Qed.

(** What [DeleteCollection] does after an error of the legacy store. *)
Lemma DeleteCollection_error_run deleteValidation options listOptions (w : World L S)
    res e l1 h1 :
  st_DeleteCollection (Legacy d) deleteValidation options listOptions (legacy_st w) (heap w)
    = ((res, Some e), l1, h1) ->
  exists w',
    DeleteCollection Mode1 d deleteValidation options listOptions w
      = Returned (res, Some e) w' /\
    metrics w' = metrics w ++
      [mkRecord Primary true (mode Mode1) (do_Kind options) "delete-collection";
       mkRecord Primary false (mode Mode1) (do_Kind options) "delete-collection"] /\
    spawned w' = spawned w ++ [GoDeleteCollection deleteValidation options listOptions].
Proof.
  intros H. dw_unfold. rewrite H. cbn. eexists. repeat split.
  cbn. now rewrite <- app_assoc.
Qed.

(** A launched task always completes, with one call on the secondary
    store and one secondary-store record; the primary store, the task
    list and the caller-path trace are left alone. *)
Lemma runTask_records_once (t : Task) (w : World L S) :
  exists failed name method w',
    runTask Mode1 d t w = Returned tt w' /\
    metrics w' = metrics w ++ [mkRecord Secondary failed (mode Mode1) name method] /\
    legacy_st w' = legacy_st w /\ spawned w' = spawned w /\ calls w' = calls w.
Proof.
  destruct t; dw_unfold.
  - destruct (st_Create _ _ _ _ _ _) as [[[res e] s3] h3]. cbn. eauto 10.
  - destruct (st_Get _ _ _ _ _) as [[[res e] s3] h3]. cbn. eauto 10.
  - destruct (st_List _ _ _ _) as [[[res e] s3] h3]. cbn. eauto 10.
  - destruct (st_Delete _ _ _ _ _ _) as [[[[res async] e] s3] h3]. cbn. eauto 10.
  - destruct (st_DeleteCollection _ _ _ _ _ _) as [[[res e] s3] h3]. cbn. eauto 10.
  - destruct (st_Update _ _ _ _ _ _ _ _ _) as [[[[res async] e] s3] h3]. cbn. eauto 10.
Qed.

(** C2, as amended.  When the legacy [Create] succeeds and both the
    legacy result and the caller's object give access to their identity,
    the object handed to the launched secondary [Create] is the caller's
    object, and at launch it carries the UID and resource version of the
    legacy result that is returned, whatever identity it came with. *)
Theorem Create_mirror_carries_primary_identity obj createValidation options (w : World L S)
    res l1 h1 mr mo :
  st_Create (Legacy d) obj createValidation options (legacy_st w) (heap w)
    = ((res, None), l1, h1) ->
  metaOf h1 res = Some mr ->
  metaOf h1 obj = Some mo ->
  exists w',
    Create Mode1 d obj createValidation options w = Returned (res, None) w' /\
    spawned w' = spawned w ++ [GoCreate obj createValidation options] /\
    uidOf (heap w') obj = Some (UID mr) /\
    versionOf (heap w') obj = Some (ResourceVersion mr) /\
    uidOf (heap w') res = Some (UID mr) /\
    versionOf (heap w') res = Some (ResourceVersion mr).
Proof.
  intros H Hr Ho.
  destruct (Create_success_run _ _ _ _ _ _ _ H) as (w' & Hrun & Hh & _ & _ & Hs & _).
  rewrite (Accessor_Some _ _ _ Hr), (Accessor_Some _ _ _ Ho) in *. cbn in *.
  exists w'. rewrite Hh. split; [exact Hrun|]. split; [exact Hs|].
  exact (enrich_identity h1 obj res mo mr Ho Hr).
Qed.

(** C4, as amended.  The object of the [Create] mirror carries the UID
    and resource version of the legacy result (both accessors given).
    The merge base of the [Update] mirror, which is the legacy result
    object itself, carries the UID and resource version that the copy
    read from the secondary store had when it was read. *)
Theorem mirror_write_identity (w : World L S) :
  (forall obj createValidation options res l1 h1 mr mo,
     st_Create (Legacy d) obj createValidation options (legacy_st w) (heap w)
       = ((res, None), l1, h1) ->
     metaOf h1 res = Some mr ->
     metaOf h1 obj = Some mo ->
     let w' := finalWorld (Create Mode1 d obj createValidation options w) in
     spawned w' = spawned w ++ [GoCreate obj createValidation options] /\
     uidOf (heap w') obj = Some (UID mr) /\
     versionOf (heap w') obj = Some (ResourceVersion mr)) /\
  (forall name objInfo createValidation updateValidation forceAllowCreate options
          res async errLegacy l1 h1 updated e1 h2 lo e2 s3 h3 mo mr,
     st_Update (Legacy d) name objInfo createValidation updateValidation forceAllowCreate
               options (legacy_st w) (heap w) = ((res, async, errLegacy), l1, h1) ->
     UpdatedObject objInfo res h1 = ((updated, e1), h2) ->
     st_Get (Storage d) name (mkGetOptions "" "") (storage_st w) h2
       = ((Some lo, e2), s3, h3) ->
     metaOf h3 (Some lo) = Some mo ->
     metaOf h3 res = Some mr ->
     let w' := finalWorld (Update Mode1 d name objInfo createValidation updateValidation
                                  forceAllowCreate options w) in
     spawned w' = spawned w ++
       [GoUpdate name (updateWrapper (updateWrapper objInfo (Some lo)) res) createValidation
                 updateValidation forceAllowCreate options] /\
     uidOf (heap w') res = Some (UID mo) /\
     versionOf (heap w') res = Some (ResourceVersion mo)).
Proof.
  split.
  - intros obj createValidation options res l1 h1 mr mo H Hr Ho w'. subst w'.
    destruct (Create_success_run _ _ _ _ _ _ _ H) as (w' & Hrun & Hh & _ & _ & Hs & _).
    rewrite Hrun. cbn [finalWorld].
    rewrite (Accessor_Some _ _ _ Hr), (Accessor_Some _ _ _ Ho) in Hh. cbn in Hh.
    rewrite Hh. split; [exact Hs|].
    destruct (enrich_identity h1 obj res mo mr Ho Hr) as (Hu & Hv & _). auto.
  - intros name objInfo createValidation updateValidation forceAllowCreate options
           res async errLegacy l1 h1 updated e1 h2 lo e2 s3 h3 mo mr H1 H2 H3 Ho Hr w'.
    subst w'.
    destruct (Update_found_run _ _ _ _ _ _ _ _ _ _ _ _ _ _ _ _ _ _ _ _ _ H1 H2 H3 Ho Hr)
      as (w' & Hrun & Hs & _ & _ & Hu & Hv).
    rewrite Hrun. cbn [finalWorld]. auto.
Qed.

(** C7.  In an [Update] whose read of the secondary store found a copy,
    the directive handed to the launched secondary [Update] is the
    caller's directive wrapped twice.  Resolving it, against whatever
    current object, resolves the caller's directive against the copy
    read from the secondary store; the outer wrapper holds the legacy
    result, which by then carries the resource version and UID of that
    copy.  When the accessor of the copy or of the legacy result is nil
    the run panics instead and hands over nothing. *)
Theorem Update_directive_rebased_on_secondary_copy name objInfo createValidation
    updateValidation forceAllowCreate options (w : World L S)
    res async errLegacy l1 h1 updated e1 h2 lo e2 s3 h3 :
  st_Update (Legacy d) name objInfo createValidation updateValidation forceAllowCreate
            options (legacy_st w) (heap w) = ((res, async, errLegacy), l1, h1) ->
  UpdatedObject objInfo res h1 = ((updated, e1), h2) ->
  st_Get (Storage d) name (mkGetOptions "" "") (storage_st w) h2 = ((Some lo, e2), s3, h3) ->
  let wrapped := updateWrapper (updateWrapper objInfo (Some lo)) res in
  let out := Update Mode1 d name objInfo createValidation updateValidation
                    forceAllowCreate options w in
  (forall current h, UpdatedObject wrapped current h = UpdatedObject objInfo (Some lo) h) /\
  ((exists w', out = Returned (res, async, errLegacy) w' /\
      spawned w' = spawned w ++
        [GoUpdate name wrapped createValidation updateValidation forceAllowCreate options] /\
      is_Some (metaOf h3 (Some lo)) /\
      uidOf (heap w') res = uidOf h3 (Some lo) /\
      versionOf (heap w') res = versionOf h3 (Some lo))
   \/
   (exists w', out = Panicked w' /\ spawned w' = spawned w /\
      (metaOf h3 (Some lo) = None \/ metaOf h3 res = None))).
Proof.
  intros H1 H2 H3 wrapped out. split; [reflexivity|].
  destruct (metaOf h3 (Some lo)) as [mo|] eqn:Ho.
  - destruct (metaOf h3 res) as [mr|] eqn:Hr.
    + left.
      destruct (Update_found_run _ _ _ _ _ _ _ _ _ _ _ _ _ _ _ _ _ _ _ _ _ H1 H2 H3 Ho Hr)
        as (w' & Hrun & Hs & _ & _ & Hu & Hv).
      exists w'. unfold uidOf, versionOf in *. rewrite Ho. cbn. eauto 10.
    + right.
      destruct (Update_found_panics _ _ _ _ _ _ _ _ _ _ _ _ _ _ _ _ _ _ _ H1 H2 H3
                  (or_intror Hr)) as (w' & Hrun & Hs).
      exists w'. auto.
  - right.
    destruct (Update_found_panics _ _ _ _ _ _ _ _ _ _ _ _ _ _ _ _ _ _ _ H1 H2 H3
                (or_introl Ho)) as (w' & Hrun & Hs).
    exists w'. auto.
Qed.

End Properties.

(** *** Two secondary stores behind one primary store *)

Section Isolation.

Variable Mode1 : Z.
Context {L S1 S2 : Type}.
Variable legacy : RestStorage L.
Variable storage1 : RestStorage S1.
Variable storage2 : RestStorage S2.
Variables (h : gmap loc Obj) (l : L) (s1 : S1) (s2 : S2).
Variables (ms1 ms2 : list DurationRecord) (cs1 cs2 : list Call).
Variables (ts1 ts2 : list Task) (lg1 lg2 : list string).

Let d1 := mkDualWriterMode1 legacy storage1.
Let d2 := mkDualWriterMode1 legacy storage2.
Let w1 : World L S1 := mkWorld h l s1 ms1 cs1 ts1 lg1.
Let w2 : World L S2 := mkWorld h l s2 ms2 cs2 ts2 lg2.

(** C1, as amended.  Started on the same objects and the same primary
    store, [Create], [Get], [List], [Delete] and [DeleteCollection] give
    their caller the same returned values, the same objects and the same
    primary store whatever the secondary store is and does.  For [Update]
    the returned reference, async flag and error are the legacy store's
    whenever the call returns. *)
Theorem secondary_isolation :
  (forall obj createValidation options,
     callerView (Create Mode1 d1 obj createValidation options w1) =
     callerView (Create Mode1 d2 obj createValidation options w2)) /\
  (forall name options,
     callerView (Get Mode1 d1 name options w1) = callerView (Get Mode1 d2 name options w2)) /\
  (forall options,
     callerView (List Mode1 d1 options w1) = callerView (List Mode1 d2 options w2)) /\
  (forall name deleteValidation options,
     callerView (Delete Mode1 d1 name deleteValidation options w1) =
     callerView (Delete Mode1 d2 name deleteValidation options w2)) /\
  (forall deleteValidation options listOptions,
     callerView (DeleteCollection Mode1 d1 deleteValidation options listOptions w1) =
     callerView (DeleteCollection Mode1 d2 deleteValidation options listOptions w2)) /\
  (forall name objInfo createValidation updateValidation forceAllowCreate options r1 r2,
     returnValue (Update Mode1 d1 name objInfo createValidation updateValidation
                         forceAllowCreate options w1) = Some r1 ->
     returnValue (Update Mode1 d2 name objInfo createValidation updateValidation
                         forceAllowCreate options w2) = Some r2 ->
     r1 = r2 /\
     r1 = (st_Update legacy name objInfo createValidation updateValidation forceAllowCreate
                     options l h).1.1).
Proof.
  unfold d1, d2, w1, w2. repeat apply conj.
  - intros obj createValidation options. dw_unfold. cbn.
    destruct (st_Create legacy obj createValidation options l h) as [[[res [e|]] l1] h1];
      cbn; [reflexivity|].
    destruct (Accessor h1 res) as [ac [x|]]; cbn;
      destruct (Accessor h1 obj) as [ao [y|]]; reflexivity.
  - intros name options. dw_unfold. cbn.
    destruct (st_Get legacy name options l h) as [[[res [e|]] l1] h1]; reflexivity.
  - intros options. dw_unfold. cbn.
    destruct (st_List legacy options l h) as [[[res [e|]] l1] h1]; reflexivity.
  - intros name deleteValidation options. dw_unfold. cbn.
    destruct (st_Delete legacy name deleteValidation options l h)
      as [[[[res async] [e|]] l1] h1]; reflexivity.
  - intros deleteValidation options listOptions. dw_unfold. cbn.
    destruct (st_DeleteCollection legacy deleteValidation options listOptions l h)
      as [[[res [e|]] l1] h1]; reflexivity.
  - intros name objInfo createValidation updateValidation forceAllowCreate options r1 r2 E1 E2.
    apply Update_returns_legacy_triple in E1, E2. cbn in E1, E2.
    rewrite E1, E2. auto.
Qed.

End Isolation.

(** * Concrete runs *)

Lemma Create_primary_failure_witness :
  st_Create (Legacy dwLegacyDown) (Some 0) noValidation (mkCreateOptions "dashboard") tt heapA
    = ((None, Some "boom"), tt, heapA) /\
  returnValue (Create 1 dwLegacyDown (Some 0) noValidation (mkCreateOptions "dashboard")
                      (emptyWorld heapA tt tt)) = Some (None, Some "boom").
Proof.
  split; [reflexivity|].
  destruct (Create_primary_failure 1 dwLegacyDown (Some 0) noValidation
              (mkCreateOptions "dashboard") (emptyWorld heapA tt tt) None "boom" tt heapA
              eq_refl) as (w' & -> & _).
  reflexivity.
Defined.

Lemma no_mirror_after_primary_error_witness :
  let w := emptyWorld heapA tt tt in
  mirrorFree w (finalWorld (Create 1 dwLegacyDown (Some 0) noValidation
                                   (mkCreateOptions "dashboard") w)) /\
  mirrorFree w (finalWorld (Get 1 dwLegacyDown "a" (mkGetOptions "dashboard" "") w)) /\
  mirrorFree w (finalWorld (List 1 dwLegacyDown (mkListOptions "dashboard" "") w)) /\
  mirrorFree w (finalWorld (Delete 1 dwLegacyDown "a" noValidation
                                   (mkDeleteOptions "dashboard") w)).
Proof.
  intros w.
  destruct (no_mirror_after_primary_error 1 dwLegacyDown w) as (HC & HG & HL & HD).
  refine (conj _ (conj _ (conj _ _))).
  - apply (HC (Some 0) noValidation (mkCreateOptions "dashboard") None "boom" tt heapA eq_refl).
  - apply (HG "a" (mkGetOptions "dashboard" "") None "boom" tt heapA eq_refl).
  - apply (HL (mkListOptions "dashboard" "") None "boom" tt heapA eq_refl).
  - apply (HD "a" noValidation (mkDeleteOptions "dashboard") None false "boom" tt heapA eq_refl).
Defined.

Lemma Create_mirror_carries_primary_identity_witness :
  let out := Create 1 dwMinting (Some 0) noValidation (mkCreateOptions "dashboard")
                    (emptyWorld heapA 1 tt) in
  returnValue out = Some (Some 1, None) /\
  uidOf (heap (finalWorld out)) (Some 0) = Some "u1" /\
  versionOf (heap (finalWorld out)) (Some 0) = Some "v1".
Proof.
  intros out. subst out.
  destruct (Create_mirror_carries_primary_identity 1 dwMinting (Some 0) noValidation
              (mkCreateOptions "dashboard") (emptyWorld heapA 1 tt) (Some 1) 2 heapCreated
              (mkMeta "u1" "v1" ∅ ∅) (mkMeta "" "" ∅ ∅) eq_refl eq_refl eq_refl)
    as (w' & -> & _ & Hu & Hv & _).
  cbn [returnValue finalWorld]. auto.
Defined.

(** C2, counterexample.  The caller's object at 0 is of a type without
    [ObjectMeta].  The legacy store creates its copy at 1 with UID [u1];
    the object handed to the secondary [Create] is the one at 0, which
    carries no UID at all. *)
Lemma Create_mirror_identity_counterexample :
  let out := Create 1 dwMinting (Some 0) noValidation (mkCreateOptions "dashboard")
                    (emptyWorld heapStatus 1 tt) in
  (exists e, returnValue out = Some (Some 1, e)) /\
  spawned (finalWorld out) = [GoCreate (Some 0) noValidation (mkCreateOptions "dashboard")] /\
  uidOf (heap (finalWorld out)) (Some 1) = Some "u1" /\
  versionOf (heap (finalWorld out)) (Some 1) = Some "v1" /\
  uidOf (heap (finalWorld out)) (Some 0) = None /\
  uidOf (heap (finalWorld out)) (Some 0) <> uidOf (heap (finalWorld out)) (Some 1).
Proof.
  intros out. repeat apply conj; try (vm_compute; reflexivity).
  - eexists. vm_compute. reflexivity.
  - vm_compute. discriminate.
Qed.

Lemma mirror_write_identity_witness :
  (let w' := finalWorld (Create 1 dwMinting (Some 0) noValidation
                                (mkCreateOptions "dashboard") (emptyWorld heapA 1 tt)) in
   uidOf (heap w') (Some 0) = Some "u1" /\ versionOf (heap w') (Some 0) = Some "v1") /\
  (let w' := finalWorld (Update 1 dwBoth "a" keepCurrent noValidation noUpdateValidation
                                false (mkUpdateOptions "dashboard")
                                (emptyWorld heapBoth tt tt)) in
   uidOf (heap w') (Some 1) = Some "s1" /\ versionOf (heap w') (Some 1) = Some "9").
Proof.
  split.
  - destruct (mirror_write_identity 1 dwMinting (emptyWorld heapA 1 tt)) as [HC _].
    apply (HC (Some 0) noValidation (mkCreateOptions "dashboard") (Some 1) 2 heapCreated
              (mkMeta "u1" "v1" ∅ ∅) (mkMeta "" "" ∅ ∅) eq_refl eq_refl eq_refl).
  - destruct (mirror_write_identity 1 dwBoth (emptyWorld heapBoth tt tt)) as [_ HU].
    apply (HU "a" keepCurrent noValidation noUpdateValidation false
              (mkUpdateOptions "dashboard") (Some 1) false None tt heapBoth (Some 1) None
              heapBoth 2 None tt heapBoth (mkMeta "s1" "9" ∅ ∅) (mkMeta "u1" "5" ∅ ∅)
              eq_refl eq_refl eq_refl eq_refl eq_refl).
Defined.

(** C4, counterexample.  The legacy store answers an [Update] with the
    object at 1, to which it gave UID [u1] and resource version [5]; the
    secondary store's own copy, at 2, has [s1] and [9].  The merge base of
    the launched secondary [Update] is the object at 1, and it now carries
    [s1] and [9]: the values the secondary store assigned. *)
Lemma Update_mirror_identity_counterexample :
  let out := Update 1 dwBoth "a" keepCurrent noValidation noUpdateValidation false
                    (mkUpdateOptions "dashboard") (emptyWorld heapBoth tt tt) in
  uidOf heapBoth (Some 1) = Some "u1" /\ versionOf heapBoth (Some 1) = Some "5" /\
  uidOf heapBoth (Some 2) = Some "s1" /\ versionOf heapBoth (Some 2) = Some "9" /\
  spawned (finalWorld out) =
    [GoUpdate "a" (updateWrapper (updateWrapper keepCurrent (Some 2)) (Some 1)) noValidation
              noUpdateValidation false (mkUpdateOptions "dashboard")] /\
  uidOf (heap (finalWorld out)) (Some 1) = Some "s1" /\
  versionOf (heap (finalWorld out)) (Some 1) = Some "9".
Proof. intros out. repeat apply conj; vm_compute; reflexivity. Qed.

Lemma Update_directive_rebased_on_secondary_copy_witness :
  let out := Update 1 dwBoth "a" keepCurrent noValidation noUpdateValidation false
                    (mkUpdateOptions "dashboard") (emptyWorld heapBoth tt tt) in
  (forall current h,
     UpdatedObject (updateWrapper (updateWrapper keepCurrent (Some 2)) (Some 1)) current h
     = ((Some 2, None), h)) /\
  exists w', out = Returned (Some 1, false, None) w' /\
             uidOf (heap w') (Some 1) = Some "s1" /\ versionOf (heap w') (Some 1) = Some "9".
Proof.
  intros out. subst out.
  destruct (Update_directive_rebased_on_secondary_copy 1 dwBoth "a" keepCurrent noValidation
              noUpdateValidation false (mkUpdateOptions "dashboard")
              (emptyWorld heapBoth tt tt) (Some 1) false None tt heapBoth (Some 1) None
              heapBoth 2 None tt heapBoth eq_refl eq_refl eq_refl)
    as [Hres [(w' & Hrun & _ & _ & Hu & Hv)|(w' & Hrun & _)]].
  - split; [intros current h; apply (Hres current h)|].
    exists w'. split; [exact Hrun|]. split; [exact Hu|exact Hv].
  - vm_compute in Hrun. discriminate Hrun.
Defined.

Lemma secondary_isolation_witness :
  let o1 := Update 1 dwAlone "a" keepCurrent noValidation noUpdateValidation false
                   (mkUpdateOptions "dashboard") (emptyWorld heapBoth tt tt) in
  let o2 := Update 1 dwBoth "a" keepCurrent noValidation noUpdateValidation false
                   (mkUpdateOptions "dashboard") (emptyWorld heapBoth tt tt) in
  returnValue o1 = Some (Some 1, false, None) /\
  returnValue o2 = Some (Some 1, false, None) /\
  (Some 1, false, None) =
    (st_Update (holding 1) "a" keepCurrent noValidation noUpdateValidation false
               (mkUpdateOptions "dashboard") tt heapBoth).1.1.
Proof.
  intros o1 o2.
  destruct (secondary_isolation 1 (holding 1) (failing "down") (holding 2) heapBoth tt tt tt
              [] [] [] [] [] [] [] []) as (_ & _ & _ & _ & _ & HU).
  split; [reflexivity|]. split; [reflexivity|].
  apply (HU "a" keepCurrent noValidation noUpdateValidation false (mkUpdateOptions "dashboard")
            (Some 1, false, None) (Some 1, false, None) eq_refl eq_refl).
Defined.

(** C1, counterexample.  One legacy store, which answers [Update] with
    the object at 1 (UID [u1]), in front of two secondary stores: one is
    down, the other holds its own copy at 2 (UID [s1]).  Both runs return
    the reference 1, but the object the caller gets back has UID [u1] in
    the first run and [s1] in the second. *)
Lemma secondary_isolation_counterexample :
  let o1 := Update 1 dwAlone "a" keepCurrent noValidation noUpdateValidation false
                   (mkUpdateOptions "dashboard") (emptyWorld heapBoth tt tt) in
  let o2 := Update 1 dwBoth "a" keepCurrent noValidation noUpdateValidation false
                   (mkUpdateOptions "dashboard") (emptyWorld heapBoth tt tt) in
  returnValue o1 = Some (Some 1, false, None) /\
  returnValue o2 = Some (Some 1, false, None) /\
  uidOf (heap (finalWorld o1)) (Some 1) = Some "u1" /\
  uidOf (heap (finalWorld o2)) (Some 1) = Some "s1" /\
  versionOf (heap (finalWorld o1)) (Some 1) = Some "5" /\
  versionOf (heap (finalWorld o2)) (Some 1) = Some "9" /\
  callerView o1 <> callerView o2.
Proof.
  intros o1 o2. repeat apply conj; try (vm_compute; reflexivity).
  intros E. apply (f_equal (fun v => uidOf v.1.2 (Some 1))) in E.
  vm_compute in E. discriminate E.
Qed.

(** With the legacy store down (it answers a nil object and an error) and
    a copy found in the secondary store, [Update] reaches
    [accessor.SetResourceVersion] with a nil accessor and panics. *)
Lemma Update_panics_on_nil_legacy_result :
  returnValue (Update 1 dwLegacyDown "a" keepCurrent noValidation noUpdateValidation false
                      (mkUpdateOptions "dashboard") (emptyWorld heapA tt tt)) = None.
Proof. vm_compute. reflexivity. Qed.

(** C3, at a failing input.  The legacy store is down.
    [DeleteCollection] returns its error and still launches the secondary
    [DeleteCollection], which then runs against the secondary store.
    [Update] returns its error after resolving the directive and reading
    the secondary store, and still launches the secondary [Update]. *)
Theorem primary_error_does_not_abort :
  let w := emptyWorld heapA tt tt in
  let outD := DeleteCollection 1 dwAllDown noValidation (mkDeleteOptions "dashboard")
                               (mkListOptions "dashboard" "") w in
  let outU := Update 1 dwAllDown "a" keepCurrent noValidation noUpdateValidation false
                     (mkUpdateOptions "dashboard") w in
  returnValue outD = Some (None, Some "boom") /\
  spawned (finalWorld outD) =
    [GoDeleteCollection noValidation (mkDeleteOptions "dashboard")
                        (mkListOptions "dashboard" "")] /\
  secondaryRecords
    (metrics (finalWorld
       (runTask 1 dwAllDown
          (GoDeleteCollection noValidation (mkDeleteOptions "dashboard")
                              (mkListOptions "dashboard" ""))
          (finalWorld outD))))
    = [mkRecord Secondary true "1" "dashboard" "delete-collection"] /\
  returnValue outU = Some (None, false, Some "boom") /\
  calls (finalWorld outU) =
    [StoreCall Primary OpUpdate None (Some "boom");
     DirectiveCall None None None;
     StoreCall Secondary OpGet None (Some "down")] /\
  spawned (finalWorld outU) =
    [GoUpdate "a" keepCurrent noValidation noUpdateValidation false
              (mkUpdateOptions "dashboard")].
Proof. intros w outD outU. repeat apply conj; vm_compute; reflexivity. Qed.

(** C5, at a failing input.  The legacy store is down.  Both
    [DeleteCollection] and [Update] finalize two primary-store records
    for the one call: a failure, then a success. *)
Theorem primary_error_recorded_twice :
  let w := emptyWorld heapA tt tt in
  let outD := DeleteCollection 1 dwAllDown noValidation (mkDeleteOptions "dashboard")
                               (mkListOptions "dashboard" "") w in
  let outU := Update 1 dwAllDown "a" keepCurrent noValidation noUpdateValidation false
                     (mkUpdateOptions "dashboard") w in
  returnValue outD = Some (None, Some "boom") /\
  primaryRecords (metrics (finalWorld outD)) =
    [mkRecord Primary true "1" "dashboard" "delete-collection";
     mkRecord Primary false "1" "dashboard" "delete-collection"] /\
  returnValue outU = Some (None, false, Some "boom") /\
  primaryRecords (metrics (finalWorld outU)) =
    [mkRecord Primary true "1" "a" "update";
     mkRecord Primary false "1" "a" "update"].
Proof. intros w outD outU. repeat apply conj; vm_compute; reflexivity. Qed.

(** * Further properties of the synchronizer *)

Section Coverage.

Variable Mode1 : Z.
Context {L S : Type}.
Variable d : DualWriterMode1 L S.

(** What the synchronous part of [Update] has done by its end, returned
    or panicked. *)
Lemma Update_effects name objInfo createValidation updateValidation forceAllowCreate options
    (w : World L S) res async errLegacy l1 h1 updated e1 h2 old e2 s3 h3 :
  st_Update (Legacy d) name objInfo createValidation updateValidation forceAllowCreate
            options (legacy_st w) (heap w) = ((res, async, errLegacy), l1, h1) ->
  UpdatedObject objInfo res h1 = ((updated, e1), h2) ->
  st_Get (Storage d) name (mkGetOptions "" "") (storage_st w) h2 = ((old, e2), s3, h3) ->
  let w' := finalWorld (Update Mode1 d name objInfo createValidation updateValidation
                               forceAllowCreate options w) in
  legacy_st w' = l1 /\ storage_st w' = s3 /\
  metrics w' = metrics w ++ fallThroughRecords Mode1 errLegacy name "update".
Proof.
  intros H1 H2 H3 w'. subst w'. unfold fallThroughRecords.
  dw_unfold. rewrite H1. cbn.
  destruct errLegacy as [e|]; cbn; rewrite H2; cbn;
    destruct e1 as [x1|]; cbn; rewrite H3; cbn;
    destruct e2 as [x2|]; cbn;
    (destruct old as [lo|]; cbn;
     [ destruct (Accessor h3 (Some lo)) as [ao [eo|]]; cbn;
       destruct (Accessor h3 res) as [ar [er|]]; cbn;
       destruct (metaOf h3 ao) as [mo|]; cbn;
       try (destruct ar as [lr|]; cbn;
            try destruct (metaOf _ ao) as [mo'|]; cbn)
     | ]);
    rewrite <- ?app_assoc; cbn; auto.
Qed.

(** X1.  A successful [Get] or [List] returns the legacy answer, leaves
    the secondary store alone and launches one shadow read with the same
    name and options.  When that task runs next, the secondary store
    gets that same call; its answer is dropped and only decides the
    flag of the secondary-store record that follows the primary one. *)
Theorem shadow_read_round (w : World L S) :
  (forall name options res l1 h1 res2 e2 s2 h2,
     st_Get (Legacy d) name options (legacy_st w) (heap w) = ((res, None), l1, h1) ->
     st_Get (Storage d) name options (storage_st w) h1 = ((res2, e2), s2, h2) ->
     exists w' w'',
       Get Mode1 d name options w = Returned (res, None) w' /\
       spawned w' = spawned w ++ [GoGet name options] /\
       storage_st w' = storage_st w /\ heap w' = h1 /\
       runTask Mode1 d (GoGet name options) w' = Returned tt w'' /\
       metrics w'' = metrics w ++ [mkRecord Primary false (mode Mode1) name "get";
                                   mkRecord Secondary (isErr e2) (mode Mode1) name "get"] /\
       legacy_st w'' = l1 /\ storage_st w'' = s2 /\ heap w'' = h2) /\
  (forall options res l1 h1 res2 e2 s2 h2,
     st_List (Legacy d) options (legacy_st w) (heap w) = ((res, None), l1, h1) ->
     st_List (Storage d) options (storage_st w) h1 = ((res2, e2), s2, h2) ->
     exists w' w'',
       List Mode1 d options w = Returned (res, None) w' /\
       spawned w' = spawned w ++ [GoList options] /\
       storage_st w' = storage_st w /\ heap w' = h1 /\
       runTask Mode1 d (GoList options) w' = Returned tt w'' /\
       metrics w'' =
         metrics w ++ [mkRecord Primary false (mode Mode1) (lo_Kind options) "list";
                       mkRecord Secondary (isErr e2) (mode Mode1) (lo_Kind options) "list"] /\
       legacy_st w'' = l1 /\ storage_st w'' = s2 /\ heap w'' = h2).
Proof.
  split; intros; dw_unfold; rewrite H; cbn; do 2 eexists;
    (split; [reflexivity|]); cbn; rewrite H0; cbn;
    rewrite <- app_assoc; repeat split.
Qed.

(** X2.  A successful [Delete] returns the legacy answer with its async
    flag and launches one mirror delete with the same name, validation
    and options.  When that task runs next, the secondary store gets
    that call; a failure there only sets the flag of the secondary-store
    record and leaves the primary store as the legacy call left it. *)
Theorem mirrored_delete_round name deleteValidation options (w : World L S)
    res async l1 h1 res2 async2 e2 s2 h2 :
  st_Delete (Legacy d) name deleteValidation options (legacy_st w) (heap w)
    = ((res, async, None), l1, h1) ->
  st_Delete (Storage d) name deleteValidation options (storage_st w) h1
    = ((res2, async2, e2), s2, h2) ->
  exists w' w'',
    Delete Mode1 d name deleteValidation options w = Returned (res, async, None) w' /\
    spawned w' = spawned w ++ [GoDelete name deleteValidation options] /\
    storage_st w' = storage_st w /\ heap w' = h1 /\
    runTask Mode1 d (GoDelete name deleteValidation options) w' = Returned tt w'' /\
    metrics w'' = metrics w ++ [mkRecord Primary false (mode Mode1) name "delete";
                                mkRecord Secondary (isErr e2) (mode Mode1) name "delete"] /\
    legacy_st w'' = l1 /\ storage_st w'' = s2 /\ heap w'' = h2.
Proof.
  intros H H0. dw_unfold. rewrite H. cbn. do 2 eexists.
  split; [reflexivity|]. cbn. rewrite H0. cbn.
  rewrite <- app_assoc. repeat split.
Qed.

(** X3.  [DeleteCollection] never stops at the legacy answer: whatever
    the legacy store answered, error or not, it returns that answer
    unchanged and launches exactly one mirror [DeleteCollection] with the
    same arguments, without reaching the secondary store itself.  After
    an error it has finalized a failure record and a success record. *)
Theorem DeleteCollection_always_mirrors deleteValidation options listOptions (w : World L S)
    res err l1 h1 :
  st_DeleteCollection (Legacy d) deleteValidation options listOptions (legacy_st w) (heap w)
    = ((res, err), l1, h1) ->
  exists w',
    DeleteCollection Mode1 d deleteValidation options listOptions w = Returned (res, err) w' /\
    spawned w' = spawned w ++ [GoDeleteCollection deleteValidation options listOptions] /\
    metrics w' =
      metrics w ++ fallThroughRecords Mode1 err (do_Kind options) "delete-collection" /\
    heap w' = h1 /\ legacy_st w' = l1 /\ storage_st w' = storage_st w /\
    secondaryCalls (calls w') = secondaryCalls (calls w).
Proof.
  intros H. unfold fallThroughRecords. dw_unfold. rewrite H. cbn.
  destruct err as [e|]; cbn; eexists; (split; [reflexivity|]); cbn;
    rewrite <- ?app_assoc, secondaryCalls_app; cbn; rewrite app_nil_r; repeat split.
Qed.

(** X4.  After a successful legacy [Create], the error [Create] returns
    is the one [meta.Accessor] gave for the caller's object: nil exactly
    when that object gives access to its metadata, [errNotObject]
    otherwise, whatever the accessor of the legacy result said.  In both
    cases the legacy store keeps what it created, the success record is
    finalized and the mirror is launched. *)
Theorem Create_returns_input_accessor_error obj createValidation options (w : World L S)
    res l1 h1 :
  st_Create (Legacy d) obj createValidation options (legacy_st w) (heap w)
    = ((res, None), l1, h1) ->
  exists w' e,
    Create Mode1 d obj createValidation options w = Returned (res, e) w' /\
    (e = None <-> is_Some (metaOf h1 obj)) /\
    (e <> None -> e = Some errNotObject) /\
    legacy_st w' = l1 /\
    spawned w' = spawned w ++ [GoCreate obj createValidation options] /\
    metrics w' = metrics w ++ [mkRecord Primary false (mode Mode1) (co_Kind options) "create"].
Proof.
  intros H.
  edestruct (Create_success_run Mode1 d) as (w' & Hrun & _ & Hl & _ & Hs & Hm);
    [exact H|].
  exists w', (Accessor h1 obj).2. split; [exact Hrun|].
  unfold Accessor. destruct (metaOf h1 obj) as [m|]; cbn.
  - repeat split; eauto. intros E. now contradiction E.
  - repeat split; auto; try discriminate. intros [x E]. discriminate E.
Qed.

(** X5.  When the read of the secondary store finds no copy (a nil
    object, with or without an error), [Update] rewrites nothing: it
    returns the legacy triple, the objects stay as the read left them and
    the launched mirror carries the caller's own directive, unwrapped.
    When that task runs next, the secondary [Update] is called with that
    directive and the caller's arguments. *)
Theorem Update_without_secondary_copy name objInfo createValidation updateValidation
    forceAllowCreate options (w : World L S)
    res async errLegacy l1 h1 updated e1 h2 e2 s3 h3 res4 async4 e4 s4 h4 :
  st_Update (Legacy d) name objInfo createValidation updateValidation forceAllowCreate
            options (legacy_st w) (heap w) = ((res, async, errLegacy), l1, h1) ->
  UpdatedObject objInfo res h1 = ((updated, e1), h2) ->
  st_Get (Storage d) name (mkGetOptions "" "") (storage_st w) h2 = ((None, e2), s3, h3) ->
  st_Update (Storage d) name objInfo createValidation updateValidation forceAllowCreate
            options s3 h3 = ((res4, async4, e4), s4, h4) ->
  let task := GoUpdate name objInfo createValidation updateValidation forceAllowCreate
                       options in
  exists w' w'',
    Update Mode1 d name objInfo createValidation updateValidation forceAllowCreate options w
      = Returned (res, async, errLegacy) w' /\
    spawned w' = spawned w ++ [task] /\
    heap w' = h3 /\
    runTask Mode1 d task w' = Returned tt w'' /\
    storage_st w'' = s4 /\ heap w'' = h4 /\ legacy_st w'' = l1 /\
    metrics w'' = metrics w' ++ [mkRecord Secondary (isErr e4) (mode Mode1) name "update"].
Proof.
  intros H1 H2 H3 H4 task. subst task.
  edestruct (Update_absent_run Mode1 d) as (w' & Hrun & Hs & Hh & Hl & Hst);
    [exact H1|exact H2|exact H3|].
  exists w'. eexists. split; [exact Hrun|]. split; [exact Hs|]. split; [exact Hh|].
  dw_unfold. rewrite Hst, Hh, H4. cbn. rewrite Hl. repeat split.
Qed.

(** X6.  [Update] panics exactly when the read of the secondary store
    found a copy and [meta.Accessor] fails on that copy or on the legacy
    result (a nil legacy result included).  It then launches nothing,
    but the legacy update has already taken place. *)
Theorem Update_panics_iff name objInfo createValidation updateValidation forceAllowCreate
    options (w : World L S) res async errLegacy l1 h1 updated e1 h2 old e2 s3 h3 :
  st_Update (Legacy d) name objInfo createValidation updateValidation forceAllowCreate
            options (legacy_st w) (heap w) = ((res, async, errLegacy), l1, h1) ->
  UpdatedObject objInfo res h1 = ((updated, e1), h2) ->
  st_Get (Storage d) name (mkGetOptions "" "") (storage_st w) h2 = ((old, e2), s3, h3) ->
  let out := Update Mode1 d name objInfo createValidation updateValidation
                    forceAllowCreate options w in
  (returnValue out = None <->
   exists lo, old = Some lo /\ (metaOf h3 (Some lo) = None \/ metaOf h3 res = None)) /\
  (returnValue out = None ->
   spawned (finalWorld out) = spawned w /\ legacy_st (finalWorld out) = l1).
Proof.
  intros H1 H2 H3 out.
  assert (Hiff : returnValue out = None <->
    exists lo, old = Some lo /\ (metaOf h3 (Some lo) = None \/ metaOf h3 res = None)).
  { subst out. split.
    - intros Hp. destruct old as [lo|].
      + exists lo. split; [reflexivity|].
        destruct (metaOf h3 (Some lo)) as [mo|] eqn:Ho; [|now left].
        destruct (metaOf h3 res) as [mr|] eqn:Hr; [|now right].
        edestruct (Update_found_run Mode1 d) as (w' & Hrun & _);
          [exact H1|exact H2|exact H3|exact Ho|exact Hr|].
        rewrite Hrun in Hp. discriminate Hp.
      + edestruct (Update_absent_run Mode1 d) as (w' & Hrun & _);
          [exact H1|exact H2|exact H3|].
        rewrite Hrun in Hp. discriminate Hp.
    - intros (lo & -> & Hn).
      edestruct (Update_found_panics Mode1 d) as (w' & Hrun & _);
        [exact H1|exact H2|exact H3|exact Hn|].
      now rewrite Hrun. }
  split; [exact Hiff|].
  intros Hp. split.
  - apply Hiff in Hp. destruct Hp as (lo & -> & Hn).
    edestruct (Update_found_panics Mode1 d) as (w' & Hrun & Hs);
      [exact H1|exact H2|exact H3|exact Hn|].
    subst out. now rewrite Hrun.
  - eapply Update_effects; [exact H1|exact H2|exact H3].
Qed.

(** X7.  On its own path [Update] finalizes primary-store records only,
    and does so before it reads the secondary store: whether the run
    then returns or panics, the sink holds one success record after a
    legacy success, a failure record followed by a success record after
    a legacy error, and no record of the secondary store. *)
Theorem Update_primary_records name objInfo createValidation updateValidation forceAllowCreate
    options (w : World L S) res async errLegacy l1 h1 updated e1 h2 old e2 s3 h3 :
  st_Update (Legacy d) name objInfo createValidation updateValidation forceAllowCreate
            options (legacy_st w) (heap w) = ((res, async, errLegacy), l1, h1) ->
  UpdatedObject objInfo res h1 = ((updated, e1), h2) ->
  st_Get (Storage d) name (mkGetOptions "" "") (storage_st w) h2 = ((old, e2), s3, h3) ->
  let w' := finalWorld (Update Mode1 d name objInfo createValidation updateValidation
                               forceAllowCreate options w) in
  metrics w' = metrics w ++ fallThroughRecords Mode1 errLegacy name "update" /\
  secondaryRecords (metrics w') = secondaryRecords (metrics w) /\
  storage_st w' = s3.
Proof.
  intros H1 H2 H3 w'.
  edestruct Update_effects as (_ & Hst & Hm); [exact H1|exact H2|exact H3|].
  fold w' in Hst, Hm. rewrite Hm. split; [reflexivity|]. split; [|exact Hst].
  rewrite secondaryRecords_app. unfold fallThroughRecords.
  destruct errLegacy; cbn; apply app_nil_r.
Qed.

(** X8.  On the caller's path [Create], [Get], [List], [Delete] and
    [DeleteCollection] never reach the secondary store, whatever the
    legacy store answers: its state is unchanged, no call to it is made,
    none of its records is finalized, and at most one task is launched. *)
Theorem sync_path_leaves_secondary_alone (w : World L S) :
  (forall obj createValidation options,
     shadowOnly w (finalWorld (Create Mode1 d obj createValidation options w))) /\
  (forall name options, shadowOnly w (finalWorld (Get Mode1 d name options w))) /\
  (forall options, shadowOnly w (finalWorld (List Mode1 d options w))) /\
  (forall name deleteValidation options,
     shadowOnly w (finalWorld (Delete Mode1 d name deleteValidation options w))) /\
  (forall deleteValidation options listOptions,
     shadowOnly w (finalWorld (DeleteCollection Mode1 d deleteValidation options
                                                listOptions w))).
Proof.
  unfold shadowOnly. repeat apply conj; intros; dw_unfold.
  - destruct (st_Create _ _ _ _ _ _) as [[[res [e|]] l1] h1]; cbn.
    + rewrite secondaryCalls_app, secondaryRecords_app; cbn; rewrite !app_nil_r; auto.
    + destruct (Accessor h1 res) as [ac [x|]]; cbn;
        destruct (Accessor h1 obj) as [ao [y|]]; cbn;
        rewrite secondaryCalls_app, secondaryRecords_app; cbn; rewrite !app_nil_r; eauto 6.
  - destruct (st_Get _ _ _ _ _) as [[[res [e|]] l1] h1]; cbn;
      rewrite secondaryCalls_app, secondaryRecords_app; cbn; rewrite !app_nil_r; eauto 6.
  - destruct (st_List _ _ _ _) as [[[res [e|]] l1] h1]; cbn;
      rewrite secondaryCalls_app, secondaryRecords_app; cbn; rewrite !app_nil_r; eauto 6.
  - destruct (st_Delete _ _ _ _ _ _) as [[[[res async] [e|]] l1] h1]; cbn;
      rewrite secondaryCalls_app, secondaryRecords_app; cbn; rewrite !app_nil_r; eauto 6.
  - destruct (st_DeleteCollection _ _ _ _ _ _) as [[[res [e|]] l1] h1]; cbn;
      rewrite secondaryCalls_app, ?secondaryRecords_app; cbn;
      rewrite ?secondaryRecords_app; cbn; rewrite !app_nil_r; eauto 6.
Qed.

(** X9.  A launched task is contained: it always completes, without a
    panic, whatever the secondary store answers; it finalizes exactly
    one record, a secondary-store one under this mode, and leaves the
    primary store, the task list (nothing is retried), the trace of the
    caller's path and the log as they were. *)
Theorem launched_task_is_contained (t : Task) (w : World L S) :
  exists w' r,
    runTask Mode1 d t w = Returned tt w' /\
    metrics w' = metrics w ++ [r] /\
    rec_role r = Secondary /\ rec_mode r = mode Mode1 /\
    legacy_st w' = legacy_st w /\ spawned w' = spawned w /\
    calls w' = calls w /\ logs w' = logs w.
Proof.
  destruct t; dw_unfold.
  - destruct (st_Create _ _ _ _ _ _) as [[[res e] s3] h3]. cbn. eauto 12.
  - destruct (st_Get _ _ _ _ _) as [[[res e] s3] h3]. cbn. eauto 12.
  - destruct (st_List _ _ _ _) as [[[res e] s3] h3]. cbn. eauto 12.
  - destruct (st_Delete _ _ _ _ _ _) as [[[[res async] e] s3] h3]. cbn. eauto 12.
  - destruct (st_DeleteCollection _ _ _ _ _ _) as [[[res e] s3] h3]. cbn. eauto 12.
  - destruct (st_Update _ _ _ _ _ _ _ _ _) as [[[[res async] e] s3] h3]. cbn. eauto 12.
Qed.

(** X10.  [Create], [Get], [List] and [Delete] finalize exactly one
    record on the caller's path, a primary-store one, and its failure
    flag says whether the legacy call answered an error; for [Create]
    this holds also when the error it returns comes from the accessor. *)
Theorem four_methods_record_once (w : World L S) :
  (forall obj createValidation options res err l1 h1,
     st_Create (Legacy d) obj createValidation options (legacy_st w) (heap w)
       = ((res, err), l1, h1) ->
     metrics (finalWorld (Create Mode1 d obj createValidation options w)) =
     metrics w ++ [mkRecord Primary (isErr err) (mode Mode1) (co_Kind options) "create"]) /\
  (forall name options res err l1 h1,
     st_Get (Legacy d) name options (legacy_st w) (heap w) = ((res, err), l1, h1) ->
     metrics (finalWorld (Get Mode1 d name options w)) =
     metrics w ++ [mkRecord Primary (isErr err) (mode Mode1) name "get"]) /\
  (forall options res err l1 h1,
     st_List (Legacy d) options (legacy_st w) (heap w) = ((res, err), l1, h1) ->
     metrics (finalWorld (List Mode1 d options w)) =
     metrics w ++ [mkRecord Primary (isErr err) (mode Mode1) (lo_Kind options) "list"]) /\
  (forall name deleteValidation options res async err l1 h1,
     st_Delete (Legacy d) name deleteValidation options (legacy_st w) (heap w)
       = ((res, async, err), l1, h1) ->
     metrics (finalWorld (Delete Mode1 d name deleteValidation options w)) =
     metrics w ++ [mkRecord Primary (isErr err) (mode Mode1) name "delete"]).
Proof.
  destruct (legacy_recorded_once Mode1 d w) as (HC & HG & HL & HD).
  repeat apply conj; intros.
  - rewrite HC, H. reflexivity.
  - rewrite HG, H. reflexivity.
  - rewrite HL, H. reflexivity.
  - rewrite HD, H. reflexivity.
Qed.

End Coverage.

(** X11.  The mode label is the decimal text of the mode constant, as
    [strconv.Itoa] writes it: reading it back as a decimal integer gives
    the constant again, so two modes never share a label. *)
Theorem mode_round_trip (Mode1 : Z) :
  option_map Z.of_int (NilZero.int_of_string (mode Mode1)) = Some Mode1.
Proof.
  unfold mode. rewrite NilZero.isi.
  - cbn. now rewrite DecimalZ.of_to.
  - destruct Mode1 as [|p|p]; cbn; try discriminate.
    intros [= E]. now apply Unsigned.to_uint_nonnil in E.
  - destruct Mode1 as [|p|p]; cbn; try discriminate.
    intros [= E]. now apply Unsigned.to_uint_nonnil in E.
Qed.

(** *** Concrete runs of the further properties *)

Lemma shadow_read_round_witness :
  let w := emptyWorld heapBoth tt tt in
  (exists w' w'',
     Get 1 dwBoth "a" (mkGetOptions "dashboard" "") w = Returned (Some 1, None) w' /\
     runTask 1 dwBoth (GoGet "a" (mkGetOptions "dashboard" "")) w' = Returned tt w'' /\
     metrics w'' = [mkRecord Primary false "1" "a" "get";
                    mkRecord Secondary false "1" "a" "get"]) /\
  (exists w' w'',
     List 1 dwBoth (mkListOptions "dashboard" "") w = Returned (Some 1, None) w' /\
     runTask 1 dwBoth (GoList (mkListOptions "dashboard" "")) w' = Returned tt w'' /\
     metrics w'' = [mkRecord Primary false "1" "dashboard" "list";
                    mkRecord Secondary false "1" "dashboard" "list"]).
Proof.
  intros w. destruct (shadow_read_round 1 dwBoth w) as [HG HL]. split.
  - destruct (HG "a" (mkGetOptions "dashboard" "") (Some 1) tt heapBoth (Some 2) None tt
                 heapBoth eq_refl eq_refl)
      as (w' & w'' & Hrun & _ & _ & _ & Htask & Hm & _).
    exists w', w''. auto.
  - destruct (HL (mkListOptions "dashboard" "") (Some 1) tt heapBoth (Some 2) None tt
                 heapBoth eq_refl eq_refl)
      as (w' & w'' & Hrun & _ & _ & _ & Htask & Hm & _).
    exists w', w''. auto.
Defined.

Lemma mirrored_delete_round_witness :
  exists w' w'',
    Delete 1 dwAlone "a" noValidation (mkDeleteOptions "dashboard")
           (emptyWorld heapBoth tt tt) = Returned (Some 1, false, None) w' /\
    runTask 1 dwAlone (GoDelete "a" noValidation (mkDeleteOptions "dashboard")) w'
      = Returned tt w'' /\
    metrics w'' = [mkRecord Primary false "1" "a" "delete";
                   mkRecord Secondary true "1" "a" "delete"] /\
    legacy_st w'' = tt.
Proof.
  destruct (mirrored_delete_round 1 dwAlone "a" noValidation (mkDeleteOptions "dashboard")
              (emptyWorld heapBoth tt tt) (Some 1) false tt heapBoth None false (Some "down")
              tt heapBoth eq_refl eq_refl)
    as (w' & w'' & Hrun & _ & _ & _ & Htask & Hm & Hl & _).
  exists w', w''. auto.
Defined.

Lemma DeleteCollection_always_mirrors_witness :
  exists w',
    DeleteCollection 1 dwAllDown noValidation (mkDeleteOptions "dashboard")
                     (mkListOptions "dashboard" "") (emptyWorld heapA tt tt)
      = Returned (None, Some "boom") w' /\
    spawned w' = [GoDeleteCollection noValidation (mkDeleteOptions "dashboard")
                                     (mkListOptions "dashboard" "")].
Proof.
  destruct (DeleteCollection_always_mirrors 1 dwAllDown noValidation
              (mkDeleteOptions "dashboard") (mkListOptions "dashboard" "")
              (emptyWorld heapA tt tt) None (Some "boom") tt heapA eq_refl)
    as (w' & Hrun & Hs & _).
  exists w'. auto.
Defined.

Lemma Create_returns_input_accessor_error_witness :
  exists w',
    Create 1 dwMinting (Some 0) noValidation (mkCreateOptions "dashboard")
           (emptyWorld heapStatus 1 tt) = Returned (Some 1, Some errNotObject) w' /\
    legacy_st w' = 2.
Proof.
  destruct (Create_returns_input_accessor_error 1 dwMinting (Some 0) noValidation
              (mkCreateOptions "dashboard") (emptyWorld heapStatus 1 tt) (Some 1) 2
              (<[1 := mkObj (Some (mkMeta "u1" "v1" ∅ ∅)) "status"]> heapStatus) eq_refl)
    as (w' & e & Hrun & Hiff & Herr & Hl & _).
  exists w'. split; [|exact Hl].
  rewrite Hrun. rewrite Herr; [reflexivity|].
  intros E. apply Hiff in E. destruct E as [m E]. vm_compute in E. discriminate E.
Defined.

Lemma Update_without_secondary_copy_witness :
  exists w' w'',
    Update 1 dwAlone "a" keepCurrent noValidation noUpdateValidation false
           (mkUpdateOptions "dashboard") (emptyWorld heapBoth tt tt)
      = Returned (Some 1, false, None) w' /\
    spawned w' = [GoUpdate "a" keepCurrent noValidation noUpdateValidation false
                           (mkUpdateOptions "dashboard")] /\
    heap w' = heapBoth /\
    runTask 1 dwAlone (GoUpdate "a" keepCurrent noValidation noUpdateValidation false
                                (mkUpdateOptions "dashboard")) w' = Returned tt w''.
Proof.
  destruct (Update_without_secondary_copy 1 dwAlone "a" keepCurrent noValidation
              noUpdateValidation false (mkUpdateOptions "dashboard")
              (emptyWorld heapBoth tt tt) (Some 1) false None tt heapBoth (Some 1) None
              heapBoth (Some "down") tt heapBoth None false (Some "down") tt heapBoth
              eq_refl eq_refl eq_refl eq_refl)
    as (w' & w'' & Hrun & Hs & Hh & Htask & _).
  exists w', w''. auto.
Defined.

Lemma Update_panics_iff_witness :
  let out := Update 1 dwLegacyDown "a" keepCurrent noValidation noUpdateValidation false
                    (mkUpdateOptions "dashboard") (emptyWorld heapA tt tt) in
  returnValue out = None /\ spawned (finalWorld out) = [] /\ legacy_st (finalWorld out) = tt.
Proof.
  intros out.
  destruct (Update_panics_iff 1 dwLegacyDown "a" keepCurrent noValidation noUpdateValidation
              false (mkUpdateOptions "dashboard") (emptyWorld heapA tt tt)
              None false (Some "boom") tt heapA None None heapA (Some 0) None tt heapA
              eq_refl eq_refl eq_refl) as [Hiff Hp].
  assert (E : returnValue out = None).
  { apply Hiff. exists 0. split; [reflexivity|]. right. reflexivity. }
  split; [exact E|]. exact (Hp E).
Defined.

Lemma Update_primary_records_witness :
  metrics (finalWorld (Update 1 dwAllDown "a" keepCurrent noValidation noUpdateValidation
                              false (mkUpdateOptions "dashboard")
                              (emptyWorld heapA tt tt))) =
  [mkRecord Primary true "1" "a" "update"; mkRecord Primary false "1" "a" "update"].
Proof.
  destruct (Update_primary_records 1 dwAllDown "a" keepCurrent noValidation
              noUpdateValidation false (mkUpdateOptions "dashboard")
              (emptyWorld heapA tt tt) None false (Some "boom") tt heapA None None heapA
              None (Some "down") tt heapA eq_refl eq_refl eq_refl) as (Hm & _).
  exact Hm.
Defined.

Lemma four_methods_record_once_witness :
  let w := emptyWorld heapBoth tt tt in
  metrics (finalWorld (Create 1 dwLegacyDown (Some 1) noValidation
                              (mkCreateOptions "dashboard") w)) =
    [mkRecord Primary true "1" "dashboard" "create"] /\
  metrics (finalWorld (Get 1 dwBoth "a" (mkGetOptions "dashboard" "") w)) =
    [mkRecord Primary false "1" "a" "get"] /\
  metrics (finalWorld (List 1 dwLegacyDown (mkListOptions "dashboard" "") w)) =
    [mkRecord Primary true "1" "dashboard" "list"] /\
  metrics (finalWorld (Delete 1 dwBoth "a" noValidation (mkDeleteOptions "dashboard") w)) =
    [mkRecord Primary false "1" "a" "delete"].
Proof.
  intros w.
  destruct (four_methods_record_once 1 dwLegacyDown w) as (HC & _ & HL & _).
  destruct (four_methods_record_once 1 dwBoth w) as (_ & HG & _ & HD).
  refine (conj _ (conj _ (conj _ _))).
  - apply (HC (Some 1) noValidation (mkCreateOptions "dashboard") None (Some "boom") tt
              heapBoth eq_refl).
  - apply (HG "a" (mkGetOptions "dashboard" "") (Some 1) None tt heapBoth eq_refl).
  - apply (HL (mkListOptions "dashboard" "") None (Some "boom") tt heapBoth eq_refl).
  - apply (HD "a" noValidation (mkDeleteOptions "dashboard") (Some 1) false None tt heapBoth
              eq_refl).
Defined.

(** * The IRM essentials checklist *)

Lemma fold_left_count {A} (p : A -> bool) (l : list A) (acc : nat) :
  fold_left (fun acc x => if p x then acc + 1 else acc) l acc =
  acc + length (List.filter p l).
Proof.
  revert acc. induction l as [|x l IH]; intros acc; cbn; [lia|].
  rewrite IH. destruct (p x); cbn; lia.
Qed.

Lemma filter_map_length {A B} (f : A -> B) (p : B -> bool) (l : list A) :
  length (List.filter (fun x => p (f x)) l) = length (List.filter p (List.map f l)).
Proof. induction l as [|x l IH]; cbn; [reflexivity|]. destruct (p (f x)); cbn; lia. Qed.

Lemma countSteps_flags (c : Essentials.SectionsDto) :
  Essentials.countSteps c =
  Essentials.mkCounts (length (List.filter Essentials.truthy (stepFlags c)))
                      (length (List.filter Essentials.defined (stepFlags c))).
Proof.
  unfold Essentials.countSteps, stepFlags.
  assert (G : forall ss a b,
    fold_left
      (fun acc section =>
         Essentials.mkCounts
           (Essentials.stepsDone acc + Essentials.sectionDone section)
           (Essentials.totalStepsToDo acc + Essentials.sectionToDo section))
      ss (Essentials.mkCounts a b) =
    Essentials.mkCounts
      (a + length (List.filter Essentials.truthy
             (List.concat (List.map (fun s =>
                List.map (fun step => Essentials.done (Essentials.button step))
                         (Essentials.steps s)) ss))))
      (b + length (List.filter Essentials.defined
             (List.concat (List.map (fun s =>
                List.map (fun step => Essentials.done (Essentials.button step))
                         (Essentials.steps s)) ss))))).
  { induction ss as [|s ss IH]; intros a b; cbn.
    - f_equal; lia.
    - rewrite IH. unfold Essentials.sectionDone, Essentials.sectionToDo.
      rewrite fold_left_count, !List.filter_app, !List.length_app.
      rewrite (filter_map_length (fun step => Essentials.done (Essentials.button step))
                                 Essentials.truthy),
              (filter_map_length (fun step => Essentials.done (Essentials.button step))
                                 Essentials.defined).
      f_equal; lia. }
  apply G.
Qed.

Lemma truthy_le_defined (l : list (option bool)) :
  length (List.filter Essentials.truthy l) <= length (List.filter Essentials.defined l).
Proof.
  induction l as [|[[|]|] l IH]; cbn; lia.
Qed.

Lemma truthy_eq_defined (l : list (option bool)) :
  length (List.filter Essentials.truthy l) = length (List.filter Essentials.defined l) <->
  Forall (fun f => f <> Some false) l.
Proof.
  induction l as [|[[|]|] l IH]; cbn.
  - split; [constructor|reflexivity].
  - split.
    + intros E. constructor; [discriminate|]. apply IH. lia.
    + intros F. inversion F; subst. f_equal. now apply IH.
  - split.
    + intros E. pose proof (truthy_le_defined l). lia.
    + intros F. inversion F; subst. congruence.
  - split.
    + intros E. constructor; [discriminate|]. now apply IH.
    + intros F. inversion F; subst. now apply IH.
Qed.

(** X12.  For any checklist, the number of steps done never exceeds the
    number of steps to do, and the two are equal exactly when no step
    that reports a state reports [false]; steps without a [done] (it is
    [undefined]) count in neither. *)
Theorem stepsDone_le_totalStepsToDo (c : Essentials.SectionsDto) :
  let n := Essentials.countSteps c in
  Essentials.stepsDone n <= Essentials.totalStepsToDo n /\
  (Essentials.stepsDone n = Essentials.totalStepsToDo n <->
   Forall (fun f => f <> Some false) (stepFlags c)).
Proof.
  cbn zeta. rewrite countSteps_flags. cbn [Essentials.stepsDone Essentials.totalStepsToDo].
  split; [apply truthy_le_defined|apply truthy_eq_defined].
Qed.

(** X13.  In the essentials checklist the steps to do are the ones among
    the nine flagged steps whose hook reported a state, so at most nine;
    the steps done are the ones whose hook reported [true]; the two steps
    of "Test your configuration" never count. *)
Theorem essentials_progress (k : Essentials.Hooks) :
  let n := (Essentials.useGetEssentialsConfiguration k).2 in
  Essentials.stepsDone n = length (List.filter Essentials.truthy (Essentials.flags k)) /\
  Essentials.totalStepsToDo n =
    length (List.filter Essentials.defined (Essentials.flags k)) /\
  Essentials.totalStepsToDo n <= 9.
Proof.
  cbn zeta. unfold Essentials.useGetEssentialsConfiguration. cbn [snd].
  rewrite countSteps_flags. cbn [Essentials.stepsDone Essentials.totalStepsToDo].
  assert (E : stepFlags (Essentials.essentialContent k) = Essentials.flags k ++ [None; None])
    by reflexivity.
  rewrite E, !List.filter_app, !List.length_app. cbn [List.filter Essentials.truthy
    Essentials.defined length]. rewrite !Nat.add_0_r.
  split; [reflexivity|]. split; [reflexivity|].
  etransitivity; [apply List.filter_length_le|]. reflexivity.
Qed.

(** * Object summaries as SQL columns *)

Section SummaryRoundTrip.

Import SummaryHandler.

Variables LabelsT FieldsT ErrorInfoT : Type.
Variable lenLabels : LabelsT -> nat.
Variable lenFields : FieldsT -> nat.
Variable zeroLabels : LabelsT.
Variable zeroFields : FieldsT.
Variable marshalLabels : LabelsT -> string * error.
Variable marshalFields : FieldsT -> string * error.
Variable marshalError : ErrorInfoT -> string * error.
Variable unmarshalLabels : string -> LabelsT -> LabelsT * error.
Variable unmarshalFields : string -> FieldsT -> FieldsT * error.
Variable unmarshalError : string -> option ErrorInfoT -> option ErrorInfoT * error.


End SummaryRoundTrip.

